(** * cloudmarker: the missing-activity-type evaluator and the email alert sink

    A shallow embedding of
      - cloudmarker/events/azlogprofilemissingactivitytypeevent.py
      - cloudmarker/alerts/emailalert.py
    Python objects live in a heap of dict and list objects addressed by
    location, so that identity, sharing and (absence of) mutation can be
    stated.  Code that can raise runs in a state-and-exception monad whose
    state survives a raise, as Python's does. *)

From Stdlib Require Import String Ascii ZArith List Bool Lia.
From stdpp Require Import base option list.
Import ListNotations.
Local Open Scope string_scope.
Local Open Scope list_scope.

(* ===================================================================== *)
(** * Python values, objects and exceptions                               *)
(* ===================================================================== *)

Module Py.

(** Locations are indices into the heap. *)
Abbreviation loc := nat (only parsing).

(** Immediate values, and references to heap objects. *)
Inductive val :=
| VNone
| VBool (b : bool)
| VInt (z : Z)
| VStr (s : string)
| VRef (l : loc).

(** Heap objects: a dict keeps its items in insertion order (keys are
    strings, as in the JSON-shaped records of the pipeline); a list keeps
    its elements. *)
Inductive obj :=
| ODict (items : list (string * val))
| OList (elems : list val).

Inductive exn :=
| TypeError
| AttributeError
| DanglingRef
| ConnectionRefusedError
| SMTPConnectError
| SMTPAuthenticationError
| SMTPRecipientsRefused
| SMTPSenderRefused
| SMTPDataError
| SMTPServerDisconnected.

(** [issubclass(type(e), smtplib.SMTPException)]. *)
Definition is_SMTPException (e : exn) : bool :=
  match e with
  | SMTPConnectError | SMTPAuthenticationError | SMTPRecipientsRefused
  | SMTPSenderRefused | SMTPDataError | SMTPServerDisconnected => true
  | TypeError | AttributeError | DanglingRef | ConnectionRefusedError => false
  end.

Inductive result (A : Type) :=
| Ok (a : A)
| Raise (e : exn).
Arguments Ok {A} a.
Arguments Raise {A} e.

(** ** The monad: state passing, with the state kept when an exception
    is raised. *)
Section Monad.
Context {S : Type}.

Definition M (A : Type) : Type := S -> result A * S.

Definition ret {A} (a : A) : M A := fun s => (Ok a, s).

Definition bind {A B} (m : M A) (f : A -> M B) : M B :=
  fun s => match m s with
           | (Ok a, s') => f a s'
           | (Raise e, s') => (Raise e, s')
           end.

Definition raise {A} (e : exn) : M A := fun s => (Raise e, s).

Definition gets {A} (f : S -> A) : M A := fun s => (Ok (f s), s).

Definition modify (f : S -> S) : M unit := fun s => (Ok tt, f s).

(** [try: body / except <class>: handler / finally: final].  The handler
    runs for the exceptions [catches] accepts; [final] runs on every
    path, and an exception it raises replaces the pending outcome. *)
Definition try_except_finally {A} (body : M A) (catches : exn -> bool)
    (handler : exn -> M A) (final : M unit) : M A :=
  fun s =>
    let '(r, s1) :=
      match body s with
      | (Ok a, s') => (Ok a, s')
      | (Raise e, s') => if catches e then handler e s' else (Raise e, s')
      end in
    match final s1 with
    | (Ok _, s2) => (r, s2)
    | (Raise e', s2) => (Raise e', s2)
    end.

(** [for x in xs: body x]. *)
Fixpoint for_each {A} (xs : list A) (body : A -> M unit) : M unit :=
  match xs with
  | [] => ret tt
  | x :: xs' => bind (body x) (fun _ => for_each xs' body)
  end.
End Monad.
Arguments M : clear implicits.

Module Notations.
Notation "x <- c ;; k" := (bind c (fun x => k))
  (at level 100, c at next level, right associativity).
Notation "c ;;; k" := (bind c (fun _ => k))
  (at level 100, right associativity).
End Notations.

(** ** Pure reads of the heap *)

(** First item stored under [k]. *)
Fixpoint dict_lookup (k : string) (items : list (string * val)) : option val :=
  match items with
  | [] => None
  | (k', v) :: rest => if String.eqb k k' then Some v else dict_lookup k rest
  end.

(** [d[k] = v] on the items of a dict: an existing key keeps its place,
    a new key goes last. *)
Fixpoint dict_set (k : string) (v : val) (items : list (string * val))
  : list (string * val) :=
  match items with
  | [] => [(k, v)]
  | (k', v') :: rest =>
      if String.eqb k k' then (k', v) :: rest else (k', v') :: dict_set k v rest
  end.

(** [v == s] for a string literal [s]. *)
Definition val_eq_str (v : val) (s : string) : bool :=
  match v with
  | VStr s' => String.eqb s' s
  | _ => false
  end.

Definition is_none (v : val) : bool :=
  match v with VNone => true | _ => false end.

(** [needle in hay] for two strings. *)
Fixpoint str_contains (needle hay : string) : bool :=
  if String.prefix needle hay then true
  else match hay with
       | EmptyString => false
       | String _ rest => str_contains needle rest
       end.

(** [receiver.get(key, default)]: only dicts have [get]. *)
Definition heap_dict_get (h : list obj) (receiver : val) (key : string)
    (dflt : val) : result val :=
  match receiver with
  | VRef l =>
      match h !! l with
      | Some (ODict items) => Ok (default dflt (dict_lookup key items))
      | Some (OList _) => Raise AttributeError
      | None => Raise DanglingRef
      end
  | _ => Raise AttributeError
  end.

(** [item in container] for a string [item]: key membership for a dict,
    element equality for a list, substring for a string; the other values
    are not containers. *)
Definition heap_contains (h : list obj) (container : val) (item : string)
  : result bool :=
  match container with
  | VRef l =>
      match h !! l with
      | Some (ODict items) => Ok (match dict_lookup item items with Some _ => true | None => false end)
      | Some (OList elems) => Ok (existsb (fun x => val_eq_str x item) elems)
      | None => Raise DanglingRef
      end
  | VStr s => Ok (str_contains item s)
  | VNone | VBool _ | VInt _ => Raise TypeError
  end.

(** [receiver.items()]. *)
Definition heap_items (h : list obj) (receiver : val)
  : result (list (string * val)) :=
  match receiver with
  | VRef l =>
      match h !! l with
      | Some (ODict items) => Ok items
      | Some (OList _) => Raise AttributeError
      | None => Raise DanglingRef
      end
  | _ => Raise AttributeError
  end.

(** What the embedding takes from outside the two modules: Python's
    [repr] (which reads the heap to render containers) and
    [cloudmarker.util.friendly_string], a helper of the repository that
    the evaluator calls on [com.cloud_type]. *)
Class Externals := {
  repr : list obj -> val -> string;
  friendly_string : val -> val
}.

(** [str(v)]: a string is itself, everything else renders as its repr. *)
Definition py_str {E : Externals} (h : list obj) (v : val) : string :=
  match v with
  | VStr s => s
  | _ => repr h v
  end.

End Py.

Export Py.
Import Py.Notations.

(* ===================================================================== *)
(** * events/azlogprofilemissingactivitytypeevent.py                      *)
(* ===================================================================== *)

Module AzLogProfile.

Inductive log_entry :=
| LogInfo (msg : val) (args : list val).

(** The interpreter state the evaluator touches: the object heap, the
    records the generator has yielded so far, and the module logger. *)
Record state := {
  heap : list obj;
  yielded : list val;
  log : list log_entry
}.

Definition set_heap (h : list obj) (s : state) : state :=
  {| heap := h; yielded := yielded s; log := log s |}.

Definition lift {A} (r : result A) : M state A :=
  match r with
  | Ok a => ret a
  | Raise e => raise e
  end.

(** A dict display [{k1: v1, ...}]: a new object at the next free
    location. *)
Definition new_dict (items : list (string * val)) : M state val :=
  fun s => (Ok (VRef (length (heap s))), set_heap (heap s ++ [ODict items]) s).

Definition dict_get (receiver : val) (key : string) (dflt : val) : M state val :=
  fun s => lift (heap_dict_get (heap s) receiver key dflt) s.

Definition contains (container : val) (item : string) : M state bool :=
  fun s => lift (heap_contains (heap s) container item) s.

Definition yield (v : val) : M state unit :=
  modify (fun s => {| heap := heap s; yielded := yielded s ++ [v]; log := log s |}).

Definition log_info (msg : val) (args : list val) : M state unit :=
  modify (fun s => {| heap := heap s; yielded := yielded s;
                      log := log s ++ [LogInfo msg args] |}).

(** Modelled from the spec: [cloudmarker.util.merge_dicts], which is not
    among the listed sources.  The spec has the event's [ext] made by
    "merging the override into a copy": a new mapping holding the items of
    the first dict, with every item of the second stored over them.
    Neither argument is written to. *)
Definition merge_dicts (a b : val) : M state val :=
  fun s =>
    match heap_items (heap s) a, heap_items (heap s) b with
    | Ok items_a, Ok items_b =>
        new_dict (fold_left (fun acc kv => dict_set (fst kv) (snd kv) acc)
                            items_b items_a) s
    | Raise e, _ => (Raise e, s)
    | _, Raise e => (Raise e, s)
    end.

Definition event_record_type : string :=
  "log_profile_missing_activity_type_event".

Section WithExternals.
Context {E : Externals}.

(** Lines 83-121. *)
Definition _get_log_profile_activity_event (com ext : val)
    (missing_activity : string) : M state val :=
  cloud_type <- dict_get com "cloud_type" VNone ;;
  let friendly_cloud_type := friendly_string cloud_type in
  reference <- dict_get com "reference" VNone ;;
  h <- gets heap ;;
  let description :=
    (py_str h friendly_cloud_type ++ " log profile " ++ py_str h reference
     ++ " has is not enabled for " ++ missing_activity ++ " activity.")%string in
  let recommendation :=
    ("Check " ++ py_str h friendly_cloud_type ++ " log profile "
     ++ py_str h reference ++ " and enable for " ++ missing_activity
     ++ " activity.")%string in
  override <- new_dict [("record_type", VStr event_record_type)] ;;
  ext' <- merge_dicts ext override ;;
  cloud_type' <- dict_get com "cloud_type" VNone ;;
  com' <- new_dict [("cloud_type", cloud_type');
                    ("record_type", VStr event_record_type);
                    ("reference", reference);
                    ("description", VStr description);
                    ("recommendation", VStr recommendation)] ;;
  event_record <- new_dict [("ext", ext'); ("com", com')] ;;
  log_info (VStr "Generating log_profile_missing_activity_type_event; %r")
           [event_record] ;;;
  ret event_record.

Definition activities : list string := ["Write"; "Delete"; "Action"].

(** Lines 64-80. *)
Definition _evaluate_log_profile_for_activities (com ext raw : val)
  : M state unit :=
  categories <- dict_get raw "categories" VNone ;;
  log_info categories [] ;;;
  for_each activities (fun activity =>
    categories <- dict_get raw "categories" VNone ;;
    present <- contains categories activity ;;
    if negb present then
      event <- _get_log_profile_activity_event com ext activity ;;
      yield event
    else ret tt).

(** Lines 27-55: the generator run to exhaustion.  [record.get(k, {})]
    builds its default dict before the call. *)
Definition eval (record : val) : M state unit :=
  d <- new_dict [] ;;
  com <- dict_get record "com" d ;;
  if is_none com then ret tt else
  cloud_type <- dict_get com "cloud_type" VNone ;;
  if negb (val_eq_str cloud_type "azure") then ret tt else
  record_type <- dict_get com "record_type" VNone ;;
  if negb (val_eq_str record_type "log_profile") then ret tt else
  d <- new_dict [] ;;
  ext <- dict_get record "ext" d ;;
  if is_none ext then ret tt else
  d <- new_dict [] ;;
  raw <- dict_get record "raw" d ;;
  if is_none raw then ret tt else
  _evaluate_log_profile_for_activities com ext raw.

(** Lines 57-61. *)
Definition done : M state unit := ret tt.
End WithExternals.

End AzLogProfile.

(* ===================================================================== *)
(** * alerts/emailalert.py                                                *)
(* ===================================================================== *)

Module EmailAlert.

(** The delivery session of the specification: the life of one
    [smtplib.SMTP] object. *)
Inductive session_state :=
| Unconnected
| Connected
| Authenticated
| Closed.

(** The [MIMEMultipart] message [done] builds: four headers and the
    attached text parts. *)
Record message := {
  msg_date : string;
  msg_subject : string;
  msg_from : string;
  msg_to : string;
  msg_parts : list string
}.

(** What [done] asks of [smtplib]. *)
Inductive smtp_call :=
| CallSMTP (host : string) (port : Z)
| CallSMTP_SSL (host : string) (port : Z)
| CallLogin (username password : option string)
| CallSendmail (from_addr : string) (to_addrs : list string) (msg : message)
| CallQuit.

Inductive log_entry :=
| LogError (fmt : string) (e : exn).

(** The attributes of an [EmailAlert] instance. *)
Record sink := {
  host : string;
  port : Z;
  subject : string;
  to : list string;
  sender : string;
  body : string;
  stringbuffer : list string;
  use_ssl : bool;
  username : option string;
  password : option string
}.

(** The interpreter state the sink touches: the object heap (read by
    [write]), the instance, the calls made to the mail library so far, the
    state and debug flag of the current session object, and the module
    logger. *)
Record state := {
  heap : list obj;
  self : sink;
  calls : list smtp_call;
  session : session_state;
  debuglevel : bool;
  log : list log_entry
}.

(** The world outside: how the mail server answers a call, given the calls
    made before it ([None]: the call returns; [Some e]: it raises [e]), and
    what [email.utils.formatdate(localtime=True)] returns. *)
Class Transport := {
  respond : list smtp_call -> smtp_call -> option exn;
  formatdate : string
}.

Definition set_self (k : sink) (s : state) : state :=
  {| heap := heap s; self := k; calls := calls s; session := session s;
     debuglevel := debuglevel s; log := log s |}.

Definition set_session (q : session_state) (s : state) : state :=
  {| heap := heap s; self := self s; calls := calls s; session := q;
     debuglevel := debuglevel s; log := log s |}.

Definition set_debuglevel (b : bool) : M state unit :=
  modify (fun s => {| heap := heap s; self := self s; calls := calls s;
                      session := session s; debuglevel := b; log := log s |}).

Definition set_body (b : string) (k : sink) : sink :=
  {| host := host k; port := port k; subject := subject k; to := to k;
     sender := sender k; body := b; stringbuffer := stringbuffer k;
     use_ssl := use_ssl k; username := username k; password := password k |}.

Definition set_stringbuffer (buf : list string) (k : sink) : sink :=
  {| host := host k; port := port k; subject := subject k; to := to k;
     sender := sender k; body := body k; stringbuffer := buf;
     use_ssl := use_ssl k; username := username k; password := password k |}.

Definition log_error (fmt : string) (e : exn) : M state unit :=
  modify (fun s => {| heap := heap s; self := self s; calls := calls s;
                      session := session s; debuglevel := debuglevel s;
                      log := log s ++ [LogError fmt e] |}).

(** Lines 17-41.  [username] and [password] default to [None]. *)
Definition __init__ (host : string) (port : Z) (subject : string)
    (to : list string) (sender body : string) (use_ssl : bool)
    (username password : option string) : M state unit :=
  modify (set_self {| host := host; port := port; subject := subject;
                      to := to; sender := sender; body := body;
                      stringbuffer := []; use_ssl := use_ssl;
                      username := username; password := password |}).

Section WithWorld.
Context {E : Externals} {T : Transport}.

(** One call into the mail library: it is recorded, and the server's
    answer decides whether it returns or raises. *)
Definition call (c : smtp_call) : M state unit :=
  fun s =>
    let s' := {| heap := heap s; self := self s; calls := calls s ++ [c];
                 session := session s; debuglevel := debuglevel s;
                 log := log s |} in
    match respond (calls s) c with
    | None => (Ok tt, s')
    | Some e => (Raise e, s')
    end.

(** [smtp.quit()]: whether the QUIT exchange returns or raises, smtplib
    has closed the socket by the time control comes back. *)
Definition quit : M state unit :=
  fun s =>
    let '(r, s') := call CallQuit s in (r, set_session Closed s').

(** Lines 55-56. *)
Definition write (record : val) : M state unit :=
  items <- (fun s => match heap_items (heap s) record with
                     | Ok items => (Ok items, s)
                     | Raise e => (Raise e, s)
                     end) ;;
  for_each items (fun kv =>
    modify (fun s =>
      set_self (set_stringbuffer
                  (stringbuffer (self s) ++ [repr (heap s) (snd kv)])
                  (self s)) s)).

(** Lines 110-115.  A new session object starts unconnected; its
    constructor connects. *)
Definition _prepare_smtp_session : M state unit :=
  k <- gets self ;;
  modify (set_session Unconnected) ;;;
  if use_ssl k then
    call (CallSMTP_SSL (host k) (port k)) ;;;
    modify (set_session Connected) ;;;
    set_debuglevel true ;;;
    call (CallLogin (username k) (password k)) ;;;
    modify (set_session Authenticated)
  else
    call (CallSMTP (host k) (port k)) ;;;
    modify (set_session Connected).

(** Lines 71-80: the envelope, and the body taken from the buffer when
    it is not empty. *)
Definition build_message : M state message :=
  k <- gets self ;;
  (if stringbuffer k is [] then ret tt
   else modify (fun s => set_self (set_body (String.concat "" (stringbuffer k))
                                            (self s)) s)) ;;;
  k' <- gets self ;;
  ret {| msg_date := formatdate;
         msg_subject := subject k;
         msg_from := sender k;
         msg_to := String.concat ", " (to k);
         msg_parts := [body k'] |}.

(** Lines 58-88. *)
Definition done : M state unit :=
  message <- build_message ;;
  _prepare_smtp_session ;;;
  k <- gets self ;;
  try_except_finally
    (call (CallSendmail (sender k) (to k) message))
    is_SMTPException
    (fun e => log_error "Failed to send email: %s" e)
    quit.
End WithWorld.

End EmailAlert.

(* ===================================================================== *)
(** * Vocabulary of the statements                                        *)
(* ===================================================================== *)

Module SinkSpec.
Import EmailAlert.

(** The constructor call that opens the connection. *)
Definition connect_call (k : sink) : smtp_call :=
  if use_ssl k then CallSMTP_SSL (host k) (port k) else CallSMTP (host k) (port k).

(** The calls [done] makes to obtain its session. *)
Definition session_calls (k : sink) : list smtp_call :=
  if use_ssl k
  then [CallSMTP_SSL (host k) (port k); CallLogin (username k) (password k)]
  else [CallSMTP (host k) (port k)].

(** The server lets every call of [cs] return, made in that order after
    the calls [prior]. *)
Fixpoint accepts {T : Transport} (prior cs : list smtp_call) : bool :=
  match cs with
  | [] => true
  | c :: cs' =>
      match respond prior c with
      | None => accepts (prior ++ [c]) cs'
      | Some _ => false
      end
  end.

(** The calls made between two states. *)
Definition new_calls (before after : state) : list smtp_call :=
  drop (length (calls before)) (calls after).

Definition is_login (c : smtp_call) : bool :=
  match c with CallLogin _ _ => true | _ => false end.

(** The text [done] sends for a sink: the buffer joined when it holds a
    fragment, the stored body otherwise. *)
Definition outgoing_body (k : sink) : string :=
  if stringbuffer k is [] then body k else String.concat "" (stringbuffer k).

(** The message [done] builds for a sink. *)
Definition message_of {T : Transport} (k : sink) : message :=
  {| msg_date := formatdate;
     msg_subject := subject k;
     msg_from := sender k;
     msg_to := String.concat ", " (to k);
     msg_parts := [outgoing_body k] |}.

(** The sink after [done] has built its message: the joined buffer has
    replaced the stored body when there was a fragment. *)
Definition store_body (s : state) : state :=
  if stringbuffer (self s) is [] then s
  else set_self (set_body (String.concat "" (stringbuffer (self s))) (self s)) s.

(** The state once the session of [done] is open. *)
Definition prepared (s : state) : state :=
  {| heap := heap s; self := self s;
     calls := calls s ++ session_calls (self s);
     session := if use_ssl (self s) then Authenticated else Connected;
     debuglevel := if use_ssl (self s) then true else debuglevel s;
     log := log s |}.

(** The bodies of the messages handed to [sendmail] among some calls. *)
Definition sent_bodies (cs : list smtp_call) : list (list string) :=
  flat_map (fun c => match c with
                     | CallSendmail _ _ m => [msg_parts m]
                     | _ => []
                     end) cs.
End SinkSpec.

Module EvalSpec.
Import AzLogProfile.

(** How a record presents one of its sections. *)
Inductive section_view :=
| Missing
| Null
| Mapping (items : list (string * val))
| Malformed.

Definition section_of (h : list obj) (record_items : list (string * val))
    (name : string) : section_view :=
  match dict_lookup name record_items with
  | None => Missing
  | Some VNone => Null
  | Some (VRef l) =>
      match h !! l with
      | Some (ODict items) => Mapping items
      | _ => Malformed
      end
  | Some _ => Malformed
  end.

(** [com.cloud_type == 'azure' and com.record_type == 'log_profile']. *)
Definition com_matches (com_items : list (string * val)) : bool :=
  val_eq_str (default VNone (dict_lookup "cloud_type" com_items)) "azure"
  && val_eq_str (default VNone (dict_lookup "record_type" com_items)) "log_profile".

(** [activity in categories], for a list of categories. *)
Definition listed (categories : list val) (activity : string) : bool :=
  existsb (fun x => val_eq_str x activity) categories.

(** The activities a list of categories leaves out, in the order of
    [activities]. *)
Definition missing_activities (categories : list val) : list string :=
  List.filter (fun activity => negb (listed categories activity)) activities.

Section WithExternals.
Context {E : Externals}.

Definition description_of (h : list obj) (com_items : list (string * val))
    (activity : string) : string :=
  (py_str h (friendly_string (default VNone (dict_lookup "cloud_type" com_items)))
   ++ " log profile "
   ++ py_str h (default VNone (dict_lookup "reference" com_items))
   ++ " has is not enabled for " ++ activity ++ " activity.")%string.

Definition recommendation_of (h : list obj) (com_items : list (string * val))
    (activity : string) : string :=
  ("Check "
   ++ py_str h (friendly_string (default VNone (dict_lookup "cloud_type" com_items)))
   ++ " log profile "
   ++ py_str h (default VNone (dict_lookup "reference" com_items))
   ++ " and enable for " ++ activity ++ " activity.")%string.

(** The [com] bucket of the event for [activity], built in heap [h]
    from the input's [com] items. *)
Definition event_com (h : list obj) (com_items : list (string * val))
    (activity : string) : list (string * val) :=
  [("cloud_type", default VNone (dict_lookup "cloud_type" com_items));
   ("record_type", VStr event_record_type);
   ("reference", default VNone (dict_lookup "reference" com_items));
   ("description", VStr (description_of h com_items activity));
   ("recommendation", VStr (recommendation_of h com_items activity))].

(** The four objects one event adds to heap [h]: the override, the
    merged [ext], the new [com], and the event record itself. *)
Definition event_objects (h : list obj) (com_items ext_items : list (string * val))
    (activity : string) : list obj :=
  [ODict [("record_type", VStr event_record_type)];
   ODict (dict_set "record_type" (VStr event_record_type) ext_items);
   ODict (event_com h com_items activity);
   ODict [("ext", VRef (length h + 1)); ("com", VRef (length h + 2))]].

(** The state after the event for [activity] has been built and
    yielded. *)
Definition emit (com_items ext_items : list (string * val))
    (activity : string) (s : state) : state :=
  {| heap := heap s ++ event_objects (heap s) com_items ext_items activity;
     yielded := yielded s ++ [VRef (length (heap s) + 3)];
     log := log s
            ++ [LogInfo (VStr "Generating log_profile_missing_activity_type_event; %r")
                        [VRef (length (heap s) + 3)]] |}.

(** The state after the loop over [acts]. *)
Fixpoint run_activities (com_items ext_items : list (string * val))
    (categories : list val) (acts : list string) (s : state) : state :=
  match acts with
  | [] => s
  | activity :: rest =>
      run_activities com_items ext_items categories rest
        (if listed categories activity then s
         else emit com_items ext_items activity s)
  end.
End WithExternals.

(** The state in which the loop starts: the three default dicts of
    [eval] allocated, the categories logged. *)
Definition entered (categories : val) (s : state) : state :=
  {| heap := heap s ++ [ODict []; ODict []; ODict []];
     yielded := yielded s;
     log := log s ++ [LogInfo categories []] |}.

(** The records yielded between two states. *)
Definition new_events (before after : state) : list val :=
  drop (length (yielded before)) (yielded after).

(** [v[k1][k2]...] read through the heap, where every step is a dict
    holding the key. *)
Fixpoint field (h : list obj) (v : val) (path : list string) : option val :=
  match path with
  | [] => Some v
  | key :: rest =>
      match v with
      | VRef l =>
          match h !! l with
          | Some (ODict items) =>
              match dict_lookup key items with
              | Some v' => field h v' rest
              | None => None
              end
          | _ => None
          end
      | _ => None
      end
  end.

(** What can be read from the event record [ev] for [activity]: the
    five [com] fields, and an [ext] that answers like the input's with
    [record_type] set. *)
Definition is_event_for {E : Externals} (h : list obj)
    (com_items ext_items : list (string * val)) (activity : string)
    (ev : val) : Prop :=
  exists h0,
    field h ev ["com"; "cloud_type"]
    = Some (default VNone (dict_lookup "cloud_type" com_items))
    /\ field h ev ["com"; "record_type"] = Some (VStr event_record_type)
    /\ field h ev ["com"; "reference"]
       = Some (default VNone (dict_lookup "reference" com_items))
    /\ field h ev ["com"; "description"]
       = Some (VStr (description_of h0 com_items activity))
    /\ field h ev ["com"; "recommendation"]
       = Some (VStr (recommendation_of h0 com_items activity))
    /\ forall key,
         field h ev ["ext"; key]
         = dict_lookup key (dict_set "record_type" (VStr event_record_type) ext_items).

(** Where the event record [ev] keeps its [ext]: in an object that did
    not exist in the heap [h_in] of the input, holding the input's [ext]
    items with only [record_type] set to the event's. *)
Definition has_fresh_ext (h_in h : list obj) (ext_items : list (string * val))
    (ev : val) : Prop :=
  exists l x y items',
    ev = VRef l
    /\ h !! l = Some (ODict [("ext", VRef x); ("com", VRef y)])
    /\ length h_in <= x
    /\ h !! x = Some (ODict items')
    /\ forall key,
         dict_lookup key items'
         = if String.eqb key "record_type" then Some (VStr event_record_type)
           else dict_lookup key ext_items.

(** Every state a computation ends in, returning or raising, keeps [P]. *)
Definition preserves {A} (P : state -> Prop) (m : M state A) : Prop :=
  forall s, P s -> P (snd (m s)).

(** A state reached from [s0] in which objects were only added, and the
    events yielded since keep their [ext] in objects added since. *)
Definition sound (s0 : state) (ext_items : list (string * val)) (s : state)
  : Prop :=
  heap s0 `prefix_of` heap s
  /\ exists evs,
       yielded s = yielded s0 ++ evs
       /\ Forall (has_fresh_ext (heap s0) (heap s) ext_items) evs.

(** A state reached from [s0] by adding objects, events and log lines. *)
Definition grown (s0 s : state) : Prop :=
  heap s0 `prefix_of` heap s
  /\ yielded s0 `prefix_of` yielded s
  /\ log s0 `prefix_of` log s.
End EvalSpec.

(** Fixtures for the closed examples. *)
Module Fixtures.
Import EmailAlert.

Definition plain_externals : Externals :=
  {| repr := fun _ v => match v with
                        | VInt 1 => "1"
                        | VInt 2 => "2"
                        | VStr s => "'" ++ s ++ "'"
                        | _ => "<object>"
                        end%string;
     friendly_string := fun v => if val_eq_str v "azure" then VStr "Azure" else v |}.

(** A server that answers every call. *)
Definition accepting : Transport :=
  {| respond := fun _ _ => None; formatdate := "Thu, 01 Jan 1970 00:00:00 +0000" |}.

(** Nothing listens on the port. *)
Definition refusing : Transport :=
  {| respond := fun _ c => match c with
                           | CallSMTP _ _ | CallSMTP_SSL _ _ => Some ConnectionRefusedError
                           | _ => None
                           end;
     formatdate := "Thu, 01 Jan 1970 00:00:00 +0000" |}.

(** The server rejects the credentials. *)
Definition rejecting_login : Transport :=
  {| respond := fun _ c => match c with
                           | CallLogin _ _ => Some SMTPAuthenticationError
                           | _ => None
                           end;
     formatdate := "Thu, 01 Jan 1970 00:00:00 +0000" |}.

(** The server rejects the recipients. *)
Definition rejecting_send : Transport :=
  {| respond := fun _ c => match c with
                           | CallSendmail _ _ _ => Some SMTPRecipientsRefused
                           | _ => None
                           end;
     formatdate := "Thu, 01 Jan 1970 00:00:00 +0000" |}.

Definition blank : state :=
  {| heap := [ODict [("a", VInt 1)]; ODict [("b", VInt 2)]];
     self := {| host := ""; port := 0; subject := ""; to := []; sender := "";
                body := ""; stringbuffer := []; use_ssl := false;
                username := None; password := None |};
     calls := []; session := Unconnected; debuglevel := false; log := [] |}.

(** [EmailAlert("mail.example.org", 25, "Findings", ["ops@example.org"],
    "cloudmarker@example.org", "No findings.", False)]. *)
Definition plain_sink : state :=
  snd (__init__ "mail.example.org" 25 "Findings" ["ops@example.org"]
                "cloudmarker@example.org" "No findings." false None None blank).

(** The same over SSL, with no credentials given. *)
Definition ssl_sink_without_credentials : state :=
  snd (__init__ "mail.example.org" 465 "Findings" ["ops@example.org"]
                "cloudmarker@example.org" "No findings." true None None blank).

(** An Azure log profile enabled for [Write] only, at location 0, and
    variants of it: without [ext] (5), without [raw] (6), of another
    cloud (7). *)
Definition profile_heap : list obj :=
  [ ODict [("com", VRef 1); ("ext", VRef 2); ("raw", VRef 3)];
    ODict [("cloud_type", VStr "azure"); ("record_type", VStr "log_profile");
           ("reference", VStr "default")];
    ODict [("record_type", VStr "log_profile"); ("subscription_id", VStr "s1")];
    ODict [("categories", VRef 4); ("locations", VRef 9)];
    OList [VStr "Write"];
    ODict [("com", VRef 1); ("raw", VRef 3)];
    ODict [("com", VRef 1); ("ext", VRef 2)];
    ODict [("com", VRef 8); ("ext", VRef 2); ("raw", VRef 3)];
    ODict [("cloud_type", VStr "gcp"); ("record_type", VStr "log_profile");
           ("reference", VStr "default")];
    OList [VStr "global"] ].

Definition profile_state : AzLogProfile.state :=
  {| AzLogProfile.heap := profile_heap;
     AzLogProfile.yielded := [];
     AzLogProfile.log := [] |}.

(** The connection breaks while the message is sent. *)
Definition dropping_send : Transport :=
  {| respond := fun _ c => match c with
                           | CallSendmail _ _ _ => Some ConnectionRefusedError
                           | _ => None
                           end;
     formatdate := "Thu, 01 Jan 1970 00:00:00 +0000" |}.

(** The server has gone by the time of QUIT. *)
Definition dropping_quit : Transport :=
  {| respond := fun _ c => match c with
                           | CallQuit => Some SMTPServerDisconnected
                           | _ => None
                           end;
     formatdate := "Thu, 01 Jan 1970 00:00:00 +0000" |}.

(** The plain sink, constructed with a user name and a password. *)
Definition plain_sink_with_credentials : state :=
  snd (__init__ "mail.example.org" 25 "Findings" ["ops@example.org"; "sec@example.org"]
                "cloudmarker@example.org" "No findings." false
                (Some "cloudmarker") (Some "secret") blank).

(** The plain sink beside an empty record. *)
Definition empty_record_sink : state :=
  {| heap := [ODict []]; self := self plain_sink; calls := [];
     session := Unconnected; debuglevel := false; log := [] |}.

(** The first sink after [write({"a": 1})]. *)
Definition written_sink : state :=
  snd (write (E := plain_externals) (VRef 0) plain_sink).
(** Records the provider did not shape as expected: a [com] that is a
    string (0), categories given as one string (2), and a profile
    enabled for all three activities, listed out of order (4). *)
Definition odd_heap : list obj :=
  [ ODict [("com", VStr "azure")];
    ODict [("cloud_type", VStr "azure"); ("record_type", VStr "log_profile");
           ("reference", VStr "default")];
    ODict [("com", VRef 1); ("raw", VRef 3)];
    ODict [("categories", VStr "Write,Delete,Action")];
    ODict [("com", VRef 1); ("raw", VRef 5)];
    ODict [("categories", VRef 6)];
    OList [VStr "Action"; VStr "Write"; VStr "Delete"] ].

Definition odd_state : AzLogProfile.state :=
  {| AzLogProfile.heap := odd_heap;
     AzLogProfile.yielded := [];
     AzLogProfile.log := [] |}.
(** An Azure log profile enabled for [Write] only whose [ext] is None. *)
Definition null_ext_heap : list obj :=
  [ ODict [("com", VRef 1); ("ext", VNone); ("raw", VRef 2)];
    ODict [("cloud_type", VStr "azure"); ("record_type", VStr "log_profile");
           ("reference", VStr "default")];
    ODict [("categories", VRef 3)];
    OList [VStr "Write"] ].

Definition null_ext_state : AzLogProfile.state :=
  {| AzLogProfile.heap := null_ext_heap;
     AzLogProfile.yielded := [];
     AzLogProfile.log := [] |}.
End Fixtures.

(* ===================================================================== *)
(** * The monad                                                           *)
(* ===================================================================== *)

Section MonadFacts.
Context {S : Type}.

Lemma bind_ok {A B} (m : M S A) (f : A -> M S B) s a s' :
  m s = (Ok a, s') -> bind m f s = f a s'.
Proof. unfold bind. intros ->. reflexivity. Qed.

Lemma bind_raise {A B} (m : M S A) (f : A -> M S B) s e s' :
  m s = (Raise e, s') -> bind m f s = (Raise e, s').
Proof. unfold bind. intros ->. reflexivity. Qed.

(** A loop whose body always returns, returns. *)
Lemma for_each_ok {A} (xs : list A) (body : A -> M S unit) (step : A -> S -> S) :
  (forall x s, body x s = (Ok tt, step x s)) ->
  forall s, for_each xs body s = (Ok tt, fold_left (fun s x => step x s) xs s).
Proof.
  intros Hbody. induction xs as [|x xs IH]; intros s; cbn.
  - reflexivity.
  - rewrite (bind_ok _ _ _ tt (step x s)) by apply Hbody. apply IH.
Qed.
End MonadFacts.

(* ===================================================================== *)
(** * The email alert sink                                                *)
(* ===================================================================== *)

Section SinkFacts.
Import EmailAlert SinkSpec.
Context {E : Externals} {T : Transport}.

Lemma set_body_same k : set_body (body k) k = k.
Proof. destruct k; reflexivity. Qed.

Lemma build_message_run s :
  build_message s = (Ok (message_of (self s)), store_body s).
Proof.
  unfold build_message, message_of, store_body, outgoing_body, bind, gets, ret, modify.
  destruct s as [h k c q d l]; cbn. destruct (stringbuffer k); reflexivity.
Qed.

Lemma store_body_self s :
  self (store_body s) = set_body (outgoing_body (self s)) (self s).
Proof.
  unfold store_body, outgoing_body. destruct (stringbuffer (self s)); cbn.
  - symmetry. apply set_body_same.
  - reflexivity.
Qed.

Lemma store_body_frame s :
  heap (store_body s) = heap s /\ calls (store_body s) = calls s
  /\ session (store_body s) = session s /\ log (store_body s) = log s.
Proof. unfold store_body. destruct (stringbuffer (self s)); cbn; auto. Qed.

Lemma call_accepted c s :
  respond (calls s) c = None ->
  call c s = (Ok tt, {| heap := heap s; self := self s; calls := calls s ++ [c];
                        session := session s; debuglevel := debuglevel s;
                        log := log s |}).
Proof. unfold call. intros ->. reflexivity. Qed.

Lemma call_refused c s e :
  respond (calls s) c = Some e ->
  call c s = (Raise e, {| heap := heap s; self := self s; calls := calls s ++ [c];
                          session := session s; debuglevel := debuglevel s;
                          log := log s |}).
Proof. unfold call. intros ->. reflexivity. Qed.

Lemma prepare_accepted s :
  accepts (calls s) (session_calls (self s)) = true ->
  _prepare_smtp_session s = (Ok tt, prepared s).
Proof.
  unfold _prepare_smtp_session, prepared, session_calls, bind, gets, modify,
    set_debuglevel, call.
  destruct s as [h k c q d l]; cbn. destruct (use_ssl k); cbn.
  - destruct (respond c _) eqn:E1; [discriminate|]. cbn.
    destruct (respond (c ++ _) _) eqn:E2; [discriminate|]. cbn. intros _.
    rewrite <- app_assoc. reflexivity.
  - destruct (respond c _) eqn:E1; [discriminate|]. reflexivity.
Qed.

(** The whole of [done], once its session is open: the outcome is
    decided by the answers to [sendmail] and [quit]. *)
Lemma done_run s :
  accepts (calls s) (session_calls (self s)) = true ->
  let k := self (store_body s) in
  let send := CallSendmail (sender k) (to k) (message_of (self s)) in
  let hist := calls s ++ session_calls k in
  done s =
    (match respond hist send, respond (hist ++ [send]) CallQuit with
     | _, Some e' => Raise e'
     | None, None => Ok tt
     | Some e, None => if is_SMTPException e then Ok tt else Raise e
     end,
     {| heap := heap s; self := k;
        calls := hist ++ [send; CallQuit];
        session := Closed;
        debuglevel := if use_ssl k then true else debuglevel s;
        log := match respond hist send with
               | Some e => if is_SMTPException e
                           then log s ++ [LogError "Failed to send email: %s" e]
                           else log s
               | None => log s
               end |}).
Proof.
  intros Hacc k send hist. unfold done.
  rewrite (bind_ok _ _ _ _ _ (build_message_run s)).
  assert (Hk : self (store_body s) = k) by reflexivity.
  assert (Hsc : session_calls (self (store_body s)) = session_calls (self s)).
  { rewrite store_body_self. destruct (self s); reflexivity. }
  destruct (store_body_frame s) as (Hh & Hc & Hq & Hl).
  rewrite (bind_ok _ _ _ tt (prepared (store_body s))).
  2:{ apply prepare_accepted. rewrite Hc, Hsc. exact Hacc. }
  unfold bind, gets, try_except_finally, quit, call, log_error, modify, prepared.
  cbn. rewrite Hc, Hh, Hl. fold k. fold hist. fold send.
  assert (Hd : debuglevel (store_body s) = debuglevel s).
  { unfold store_body. destruct (stringbuffer (self s)); reflexivity. }
  rewrite Hd.
  destruct (respond hist send) as [e|] eqn:Es; cbn.
  - destruct (is_SMTPException e); cbn;
      destruct (respond (hist ++ [send]) CallQuit); cbn;
      rewrite <- app_assoc; reflexivity.
  - destruct (respond (hist ++ [send]) CallQuit); cbn;
      rewrite <- app_assoc; reflexivity.
Qed.

Lemma store_body_envelope s :
  let k := self (store_body s) in
  sender k = sender (self s) /\ to k = to (self s)
  /\ stringbuffer k = stringbuffer (self s)
  /\ session_calls k = session_calls (self s)
  /\ use_ssl k = use_ssl (self s).
Proof. cbn. rewrite store_body_self. destruct (self s); cbn; auto. Qed.

Ltac case_respond :=
  repeat (cbn;
          match goal with
          | |- context [match respond ?h ?c with _ => _ end] =>
              destruct (respond h c) eqn:?
          | |- context [if is_SMTPException ?e then _ else _] =>
              destruct (is_SMTPException e) eqn:?
          end).

(** Whatever the server answers, obtaining a session touches neither the
    sink nor the heap nor the logger. *)
Lemma prepare_frame s :
  let s' := snd (_prepare_smtp_session s) in
  self s' = self s /\ heap s' = heap s /\ log s' = log s.
Proof.
  unfold _prepare_smtp_session, bind, gets, modify, set_debuglevel, call.
  destruct s as [h k c q d l]; cbn. destruct (use_ssl k); case_respond; auto.
Qed.

(** On every path, [done] leaves in the sink what building the message
    left there. *)
Lemma done_self s : self (snd (done s)) = self (store_body s).
Proof.
  unfold done. rewrite (bind_ok _ _ _ _ _ (build_message_run s)).
  generalize (message_of (self s)). generalize (store_body s). clear s.
  intros s m.
  unfold _prepare_smtp_session, bind, gets, modify, set_debuglevel,
    try_except_finally, quit, call, log_error.
  destruct s as [h k c q d l]; cbn. destruct (use_ssl k); case_respond; auto.
Qed.

Lemma write_loop (items : list (string * val)) s :
  for_each items (fun kv =>
    modify (fun s =>
      set_self (set_stringbuffer
                  (stringbuffer (self s) ++ [repr (heap s) (snd kv)])
                  (self s)) s)) s
  = (Ok tt,
     set_self (set_stringbuffer
                 (stringbuffer (self s)
                  ++ map (fun kv => repr (heap s) (snd kv)) items)
                 (self s)) s).
Proof.
  revert s. induction items as [|kv items IH]; intros s; cbn [for_each map].
  - rewrite app_nil_r. destruct s as [h k c q d l]. destruct k. reflexivity.
  - erewrite bind_ok by reflexivity. rewrite IH. cbn.
    rewrite <- app_assoc. reflexivity.
Qed.

Lemma write_run record items s :
  heap_items (heap s) record = Ok items ->
  write record s
  = (Ok tt,
     set_self (set_stringbuffer
                 (stringbuffer (self s)
                  ++ map (fun kv => repr (heap s) (snd kv)) items)
                 (self s)) s).
Proof.
  intros Hitems. unfold write.
  rewrite (bind_ok _ _ s items s) by (rewrite Hitems; reflexivity).
  apply write_loop.
Qed.

(** [done] sends what [outgoing_body] says, once its session is open. *)
Lemma done_sent_bodies s :
  accepts (calls s) (session_calls (self s)) = true ->
  sent_bodies (new_calls s (snd (done s))) = [[outgoing_body (self s)]].
Proof.
  intros Hacc. rewrite (done_run s Hacc). unfold new_calls. cbn.
  destruct (store_body_envelope s) as (_ & _ & _ & -> & _).
  rewrite <- app_assoc, drop_app_length.
  unfold session_calls. destruct (use_ssl (self s)); reflexivity.
Qed.
End SinkFacts.

Section SinkClaims.
Import EmailAlert SinkSpec.
Context {E : Externals} {T : Transport}.

(** C1 (as amended).  When the session has been obtained and the server
    rejects the send with an SMTP error, [done] logs the failure, closes
    the session and returns normally, provided the closing QUIT itself
    returns.  Failures while the session is being obtained (connection,
    login) are outside the guarded region and are not covered. *)
Theorem done_isolates_rejected_send s e :
  let k := self s in
  let send := CallSendmail (sender k) (to k) (message_of k) in
  let hist := calls s ++ session_calls k in
  accepts (calls s) (session_calls k) = true ->
  respond hist send = Some e ->
  is_SMTPException e = true ->
  respond (hist ++ [send]) CallQuit = None ->
  exists s',
    done s = (Ok tt, s')
    /\ session s' = Closed
    /\ log s' = log s ++ [LogError "Failed to send email: %s" e]
    /\ calls s' = hist ++ [send; CallQuit].
Proof.
  intros k send hist Hacc Hsend Hsmtp Hquit.
  destruct (store_body_envelope s) as (Hs & Ht & _ & Hc & _).
  pose proof (done_run s Hacc) as Hrun. cbn zeta in Hrun.
  rewrite Hs, Ht, Hc in Hrun. fold k send hist in Hrun.
  rewrite Hsend, Hquit, Hsmtp in Hrun.
  eexists. split; [exact Hrun|]. cbn. auto.
Qed.

(** C6 (as amended).  Once the connection is open, the login step is
    performed exactly when [use_ssl] is set, with the stored user name
    and password whether or not any were supplied; the session becomes
    [Authenticated] only on that path. *)
Theorem login_follows_use_ssl s :
  let k := self s in
  let s' := snd (_prepare_smtp_session s) in
  respond (calls s) (connect_call k) = None ->
  existsb is_login (new_calls s s') = use_ssl k
  /\ (use_ssl k = true ->
      new_calls s s' = [connect_call k; CallLogin (username k) (password k)])
  /\ (session s' = Authenticated -> use_ssl k = true).
Proof.
  unfold new_calls, connect_call, _prepare_smtp_session, bind, gets, modify,
    set_debuglevel, call.
  destruct s as [h k c q d l]; cbn. destruct (use_ssl k); cbn; intros ->; cbn.
  - destruct (respond _ _); cbn;
      rewrite <- ?app_assoc, drop_app_length; cbn; auto.
  - rewrite drop_app_length. cbn. repeat split; discriminate.
Qed.

(** C7 (as amended).  Constructing a sink never fails: the constructor
    stores its arguments as given, starts with an empty buffer, checks
    nothing and calls nothing, also when [use_ssl] is set and no
    credentials are passed. *)
Theorem init_never_fails host port subject to sender body use_ssl
    username password s :
  exists s',
    __init__ host port subject to sender body use_ssl username password s
    = (Ok tt, s')
    /\ self s' = {| EmailAlert.host := host; EmailAlert.port := port;
                    EmailAlert.subject := subject; EmailAlert.to := to;
                    EmailAlert.sender := sender; EmailAlert.body := body;
                    stringbuffer := []; EmailAlert.use_ssl := use_ssl;
                    EmailAlert.username := username;
                    EmailAlert.password := password |}
    /\ calls s' = calls s /\ log s' = log s /\ session s' = session s.
Proof. eexists. split; [reflexivity|]. cbn. auto. Qed.

(** C8.  A sink that was constructed and received no [write] builds, in
    [done], a message whose only part is the configured body; when the
    session is obtained, that is the one message handed to sendmail. *)
Theorem done_without_writes_sends_default_body host port subject to sender
    body use_ssl username password s0 :
  let s := snd (__init__ host port subject to sender body use_ssl
                         username password s0) in
  (exists s1 m, build_message s = (Ok m, s1) /\ msg_parts m = [body])
  /\ (accepts (calls s) (session_calls (self s)) = true ->
      sent_bodies (new_calls s (snd (done s))) = [[body]]).
Proof.
  intros s. split.
  - do 2 eexists. split; [apply build_message_run|]. reflexivity.
  - intros Hacc. rewrite (done_run s Hacc). unfold new_calls. cbn.
    rewrite <- app_assoc, drop_app_length.
    unfold session_calls. cbn. destruct use_ssl; reflexivity.
Qed.

(** C9.  [write] appends the rendering of every value of the record, in
    the order of its items, and calls nothing; two records written one
    after the other leave their renderings in that order, so that for
    [{k1: v1}] then [{k2: v2}] into an empty buffer the message of [done]
    has the body [repr v1] followed by [repr v2], whatever the keys:
    [done] stores that text as the body on every path and, when the
    session is obtained, hands sendmail that one message. *)
Theorem write_accumulates_renderings s record1 record2 items1 items2 :
  let render := fun kv : string * val => repr (heap s) (snd kv) in
  heap_items (heap s) record1 = Ok items1 ->
  heap_items (heap s) record2 = Ok items2 ->
  exists s',
    (write record1 ;;; write record2) s = (Ok tt, s')
    /\ stringbuffer (self s')
       = stringbuffer (self s) ++ map render items1 ++ map render items2
    /\ calls s' = calls s /\ session s' = session s
    /\ (stringbuffer (self s) = [] ->
        forall k1 k2 v1 v2,
          items1 = [(k1, v1)] -> items2 = [(k2, v2)] ->
          let joined := (repr (heap s) v1 ++ repr (heap s) v2)%string in
          (exists m s'', build_message s' = (Ok m, s'') /\ msg_parts m = [joined])
          /\ body (self (snd (done s'))) = joined
          /\ (accepts (calls s') (session_calls (self s')) = true ->
              sent_bodies (new_calls s' (snd (done s'))) = [[joined]])).
Proof.
  intros render H1 H2.
  eexists. split.
  { rewrite (bind_ok _ _ _ _ _ (write_run _ _ _ H1)).
    apply write_run. exact H2. }
  split; [cbn; rewrite <- app_assoc; reflexivity|].
  split; [reflexivity|]. split; [reflexivity|].
  intros Hempty k1 k2 v1 v2 -> -> joined.
  match goal with |- context [build_message ?st] => set (s' := st) end.
  assert (Hout : outgoing_body (self s') = joined).
  { unfold outgoing_body, s'. cbn. rewrite Hempty. cbn.
    reflexivity. }
  split.
  - do 2 eexists. split; [apply build_message_run|].
    unfold message_of. cbn [msg_parts]. rewrite Hout. reflexivity.
  - split.
    + rewrite done_self, store_body_self. exact Hout.
    + intros Hacc. rewrite (done_sent_bodies s' Hacc), Hout. reflexivity.
Qed.

(** C10.  With at least one fragment in the buffer, [done] stores the
    joined fragments in the sink's body field, on every path; the body
    given at construction is gone, and a later [done] that finds the
    buffer empty sends that joined text. *)
Theorem done_overwrites_configured_body s :
  let joined := String.concat "" (stringbuffer (self s)) in
  let s1 := snd (done s) in
  stringbuffer (self s) <> [] ->
  body (self s1) = joined
  /\ forall s2,
       self s2 = set_stringbuffer [] (self s1) ->
       (exists m s3, build_message s2 = (Ok m, s3) /\ msg_parts m = [joined])
       /\ (accepts (calls s2) (session_calls (self s2)) = true ->
           sent_bodies (new_calls s2 (snd (done s2))) = [[joined]]).
Proof.
  intros joined s1 Hbuf.
  assert (Hbody : body (self s1) = joined).
  { unfold s1. rewrite done_self, store_body_self. unfold outgoing_body.
    destruct (stringbuffer (self s)); [congruence|]. reflexivity. }
  split; [exact Hbody|]. intros s2 Hs2.
  assert (Hout : outgoing_body (self s2) = joined).
  { unfold outgoing_body. rewrite Hs2. cbn. exact Hbody. }
  split.
  - do 2 eexists. split; [apply build_message_run|].
    unfold message_of. cbn. rewrite Hout. reflexivity.
  - intros Hacc. rewrite (done_sent_bodies s2 Hacc), Hout. reflexivity.
Qed.
End SinkClaims.

(** ** Closed instances for the sink *)

Section SinkExamples.
Import EmailAlert SinkSpec Fixtures.

(** C1, counterexample: nothing listens on the port.  The constructor of
    the session raises outside the guarded region: [done] propagates the
    error, nothing is logged, and no session exists to be closed. *)
Lemma done_propagates_refused_connection :
  fst (done (T := refusing) plain_sink) = Raise ConnectionRefusedError
  /\ session (snd (done (T := refusing) plain_sink)) = Unconnected
  /\ log (snd (done (T := refusing) plain_sink)) = []
  /\ calls (snd (done (T := refusing) plain_sink))
     = [CallSMTP "mail.example.org" 25].
Proof. vm_compute. repeat split. Qed.

Lemma done_isolates_rejected_send_witness :
  accepts (T := rejecting_send) (calls plain_sink)
          (session_calls (self plain_sink)) = true
  /\ exists s',
       done (T := rejecting_send) plain_sink = (Ok tt, s')
       /\ session s' = Closed
       /\ log s' = [LogError "Failed to send email: %s" SMTPRecipientsRefused].
Proof.
  split; [reflexivity|].
  destruct (done_isolates_rejected_send (T := rejecting_send) plain_sink
              SMTPRecipientsRefused)
    as (s' & Hd & Hq & Hl & _); try reflexivity.
  exists s'. auto.
Defined.

(** C6, counterexample: a sink built with [use_ssl] and no credentials.
    The login step is performed all the same, with [None] for both, and
    the session becomes authenticated when the server lets it. *)
Lemma login_performed_without_credentials :
  username (self ssl_sink_without_credentials) = None
  /\ password (self ssl_sink_without_credentials) = None
  /\ calls (snd (_prepare_smtp_session (T := accepting)
                   ssl_sink_without_credentials))
     = [CallSMTP_SSL "mail.example.org" 465; CallLogin None None]
  /\ session (snd (_prepare_smtp_session (T := accepting)
                     ssl_sink_without_credentials))
     = Authenticated.
Proof. vm_compute. repeat split. Qed.

Lemma login_follows_use_ssl_witness :
  respond (Transport := accepting) (calls ssl_sink_without_credentials)
          (connect_call (self ssl_sink_without_credentials)) = None
  /\ existsb is_login
       (new_calls ssl_sink_without_credentials
          (snd (_prepare_smtp_session (T := accepting)
                  ssl_sink_without_credentials)))
     = true.
Proof.
  split; [reflexivity|].
  destruct (login_follows_use_ssl (T := accepting)
              ssl_sink_without_credentials eq_refl) as [Hlogin _].
  exact Hlogin.
Defined.

(** C7, counterexample: the constructor accepts [use_ssl=True] with no
    user name and no password. *)
Lemma init_accepts_ssl_without_credentials :
  __init__ "mail.example.org" 465 "Findings" ["ops@example.org"]
           "cloudmarker@example.org" "No findings." true None None blank
  = (Ok tt, ssl_sink_without_credentials)
  /\ use_ssl (self ssl_sink_without_credentials) = true
  /\ username (self ssl_sink_without_credentials) = None
  /\ password (self ssl_sink_without_credentials) = None.
Proof. repeat split. Qed.

Lemma done_without_writes_sends_default_body_witness :
  accepts (T := accepting) (calls plain_sink) (session_calls (self plain_sink))
  = true
  /\ sent_bodies (new_calls plain_sink (snd (done (T := accepting) plain_sink)))
     = [["No findings."]].
Proof.
  split; [reflexivity|].
  apply (done_without_writes_sends_default_body (T := accepting)
           "mail.example.org" 25 "Findings" ["ops@example.org"]
           "cloudmarker@example.org" "No findings." false None None blank).
  reflexivity.
Defined.

(** Records [{a: 1}] and [{b: 2}] written to a new sink. *)
Lemma write_accumulates_renderings_witness :
  heap_items (heap plain_sink) (VRef 0) = Ok [("a", VInt 1)]
  /\ heap_items (heap plain_sink) (VRef 1) = Ok [("b", VInt 2)]
  /\ exists s',
       (write (E := plain_externals) (VRef 0) ;;;
        write (E := plain_externals) (VRef 1)) plain_sink = (Ok tt, s')
       /\ stringbuffer (self s') = ["1"; "2"]
       /\ (exists m s'',
             build_message (T := accepting) s' = (Ok m, s'')
             /\ msg_parts m = ["12"])
       /\ body (self (snd (done (T := accepting) s'))) = "12"
       /\ sent_bodies (new_calls s' (snd (done (T := accepting) s'))) = [["12"]].
Proof.
  split; [reflexivity|]. split; [reflexivity|].
  destruct (write_accumulates_renderings (E := plain_externals)
              (T := accepting) plain_sink (VRef 0) (VRef 1)
              [("a", VInt 1)] [("b", VInt 2)] eq_refl eq_refl)
    as (s' & Hw & Hbuf & Hcalls & _ & Hmsg).
  exists s'. split; [exact Hw|]. split; [exact Hbuf|].
  destruct (Hmsg eq_refl "a" "b" (VInt 1) (VInt 2) eq_refl eq_refl)
    as (Hbuilt & Hbody & Hsent).
  split; [exact Hbuilt|]. split; [exact Hbody|].
  apply Hsent.
  assert (Hs' : s' = snd ((write (E := plain_externals) (VRef 0) ;;;
                           write (E := plain_externals) (VRef 1)) plain_sink))
    by (rewrite Hw; reflexivity).
  rewrite Hs'. reflexivity.
Defined.

Lemma done_overwrites_configured_body_witness :
  stringbuffer (self written_sink) <> []
  /\ body (self written_sink) = "No findings."
  /\ body (self (snd (done (T := accepting) written_sink))) = "1".
Proof.
  split; [discriminate|]. split; [reflexivity|].
  assert (Hbuf : stringbuffer (self written_sink) <> []) by discriminate.
  destruct (done_overwrites_configured_body (T := accepting) written_sink Hbuf)
    as [Hbody _].
  exact Hbody.
Defined.
End SinkExamples.

(* ===================================================================== *)
(** * The missing-activity-type evaluator                                 *)
(* ===================================================================== *)

Section EvalFacts.
Import AzLogProfile EvalSpec.
Context {E : Externals}.

Lemma dict_get_dict s l items key dflt :
  heap s !! l = Some (ODict items) ->
  dict_get (VRef l) key dflt s = (Ok (default dflt (dict_lookup key items)), s).
Proof. unfold dict_get, heap_dict_get. intros ->. reflexivity. Qed.

Lemma contains_list s l elems item :
  heap s !! l = Some (OList elems) ->
  contains (VRef l) item s = (Ok (listed elems item), s).
Proof. unfold contains, heap_contains. intros ->. reflexivity. Qed.

Lemma merge_dicts_run s a b items_a items_b :
  heap s !! a = Some (ODict items_a) ->
  heap s !! b = Some (ODict items_b) ->
  merge_dicts (VRef a) (VRef b) s
  = (Ok (VRef (length (heap s))),
     set_heap (heap s ++ [ODict (fold_left (fun acc kv => dict_set (fst kv) (snd kv) acc)
                                           items_b items_a)]) s).
Proof. unfold merge_dicts, heap_items. intros -> ->. reflexivity. Qed.

Lemma lookup_grown (h more : list obj) (l : loc) o :
  h !! l = Some o -> (h ++ more) !! l = Some o.
Proof. apply lookup_app_l_Some. Qed.

Lemma lookup_fresh (h more : list obj) i :
  (h ++ more) !! (length h + i) = more !! i.
Proof. rewrite lookup_app_r by lia. f_equal. lia. Qed.

(** Building one event, for a [com] and an [ext] that are dicts. *)
Lemma get_event_run s c e com_items ext_items activity :
  heap s !! c = Some (ODict com_items) ->
  heap s !! e = Some (ODict ext_items) ->
  _get_log_profile_activity_event (VRef c) (VRef e) activity s
  = (Ok (VRef (length (heap s) + 3)),
     {| heap := heap s ++ event_objects (heap s) com_items ext_items activity;
        yielded := yielded s;
        log := log s
               ++ [LogInfo (VStr "Generating log_profile_missing_activity_type_event; %r")
                           [VRef (length (heap s) + 3)]] |}).
Proof.
  intros Hc He. unfold _get_log_profile_activity_event.
  rewrite (bind_ok _ _ _ _ _ (dict_get_dict s c com_items _ _ Hc)).
  rewrite (bind_ok _ _ _ _ _ (dict_get_dict s c com_items _ _ Hc)).
  rewrite (bind_ok (gets heap) _ s (heap s) s eq_refl).
  rewrite (bind_ok (new_dict _) _ s _ _ eq_refl).
  set (s1 := set_heap _ s).
  assert (H1e : heap s1 !! e = Some (ODict ext_items))
    by (apply lookup_grown; exact He).
  assert (H1o : heap s1 !! length (heap s)
                = Some (ODict [("record_type", VStr event_record_type)])).
  { cbn. rewrite <- (Nat.add_0_r (length (heap s))) at 1. apply lookup_fresh. }
  rewrite (bind_ok _ _ _ _ _ (merge_dicts_run s1 _ _ _ _ H1e H1o)).
  set (s2 := set_heap _ s1).
  assert (H2c : heap s2 !! c = Some (ODict com_items))
    by (do 2 apply lookup_grown; exact Hc).
  rewrite (bind_ok _ _ _ _ _ (dict_get_dict s2 c com_items _ _ H2c)).
  rewrite (bind_ok (new_dict _) _ s2 _ _ eq_refl).
  set (s3 := set_heap _ s2).
  rewrite (bind_ok (new_dict _) _ s3 _ _ eq_refl).
  set (s4 := set_heap _ s3).
  rewrite (bind_ok (log_info _ _) _ s4 tt _ eq_refl).
  unfold ret, s4, s3, s2, s1, set_heap, event_objects; cbn.
  rewrite !length_app. cbn.
  rewrite <- !app_assoc. cbn.
  replace (length (heap s) + 1 + 1 + 1) with (length (heap s) + 3) by lia.
  replace (length (heap s) + 1 + 1) with (length (heap s) + 2) by lia.
  reflexivity.
Qed.

Lemma emit_grows com_items ext_items activity s l o :
  heap s !! l = Some o ->
  heap (emit com_items ext_items activity s) !! l = Some o.
Proof. intros Hl. cbn. apply lookup_grown. exact Hl. Qed.

(** The loop of [_evaluate_log_profile_for_activities], for a [raw]
    whose categories are a list. *)
Lemma loop_run c e w cl com_items ext_items raw_items categories acts :
  dict_lookup "categories" raw_items = Some (VRef cl) ->
  forall s,
    heap s !! c = Some (ODict com_items) ->
    heap s !! e = Some (ODict ext_items) ->
    heap s !! w = Some (ODict raw_items) ->
    heap s !! cl = Some (OList categories) ->
    for_each acts (fun activity =>
      categories <- dict_get (VRef w) "categories" VNone ;;
      present <- contains categories activity ;;
      if negb present then
        event <- _get_log_profile_activity_event (VRef c) (VRef e) activity ;;
        yield event
      else ret tt) s
    = (Ok tt, run_activities com_items ext_items categories acts s).
Proof.
  intros Hcats. induction acts as [|activity acts IH]; intros s Hc He Hw Hcl.
  - reflexivity.
  - cbn [for_each run_activities].
    erewrite bind_ok; [apply IH|].
    + destruct (listed categories activity); [exact Hc|]. apply emit_grows, Hc.
    + destruct (listed categories activity); [exact He|]. apply emit_grows, He.
    + destruct (listed categories activity); [exact Hw|]. apply emit_grows, Hw.
    + destruct (listed categories activity); [exact Hcl|]. apply emit_grows, Hcl.
    + rewrite (bind_ok _ _ _ _ _ (dict_get_dict s w raw_items _ _ Hw)).
      rewrite Hcats. cbn [default from_option id].
      rewrite (bind_ok _ _ _ _ _ (contains_list s cl categories _ Hcl)).
      destruct (listed categories activity); cbn [negb].
      * reflexivity.
      * rewrite (bind_ok _ _ _ _ _ (get_event_run s c e _ _ activity Hc He)).
        reflexivity.
Qed.

Lemma evaluate_run c e w cl com_items ext_items raw_items categories s :
  dict_lookup "categories" raw_items = Some (VRef cl) ->
  heap s !! c = Some (ODict com_items) ->
  heap s !! e = Some (ODict ext_items) ->
  heap s !! w = Some (ODict raw_items) ->
  heap s !! cl = Some (OList categories) ->
  _evaluate_log_profile_for_activities (VRef c) (VRef e) (VRef w) s
  = (Ok tt,
     run_activities com_items ext_items categories activities
       {| heap := heap s; yielded := yielded s;
          log := log s ++ [LogInfo (VRef cl) []] |}).
Proof.
  intros Hcats Hc He Hw Hcl. unfold _evaluate_log_profile_for_activities.
  rewrite (bind_ok _ _ _ _ _ (dict_get_dict s w raw_items _ _ Hw)).
  rewrite Hcats. cbn [default from_option id].
  rewrite (bind_ok (log_info _ _) _ s tt _ eq_refl).
  apply (loop_run c e w cl com_items ext_items raw_items categories activities Hcats);
    assumption.
Qed.

(** [eval] on a record of the evaluator's domain whose [raw.categories]
    is a list: the final state is known in full. *)
Lemma eval_run s r items com_items ext_items raw_items cl categories :
  heap s !! r = Some (ODict items) ->
  section_of (heap s) items "com" = Mapping com_items ->
  com_matches com_items = true ->
  match section_of (heap s) items "ext" with
  | Missing => ext_items = []
  | Mapping d => ext_items = d
  | Null | Malformed => False
  end ->
  section_of (heap s) items "raw" = Mapping raw_items ->
  dict_lookup "categories" raw_items = Some (VRef cl) ->
  heap s !! cl = Some (OList categories) ->
  eval (VRef r) s
  = (Ok tt,
     run_activities com_items ext_items categories activities
       (entered (VRef cl) s)).
Proof.
  intros Hr Hcom Hmatch Hext Hraw Hcats Hcl.
  unfold section_of in Hcom, Hext, Hraw.
  destruct (dict_lookup "com" items) as [[| | | |c]|] eqn:Lcom; try discriminate.
  destruct (heap s !! c) as [[cd|]|] eqn:Hc; try discriminate.
  injection Hcom as ->.
  destruct (dict_lookup "raw" items) as [[| | | |w]|] eqn:Lraw; try discriminate.
  destruct (heap s !! w) as [[wd|]|] eqn:Hw; try discriminate.
  injection Hraw as ->.
  apply andb_prop in Hmatch as [Hct Hrt].
  unfold eval.
  rewrite (bind_ok (new_dict _) _ s _ _ eq_refl).
  set (s1 := set_heap _ s).
  assert (G1 : forall l o, heap s !! l = Some o -> heap s1 !! l = Some o)
    by (intros; apply lookup_grown; assumption).
  rewrite (bind_ok _ _ _ _ _ (dict_get_dict s1 r items _ _ (G1 _ _ Hr))).
  rewrite Lcom. cbn [default from_option id is_none].
  rewrite (bind_ok _ _ _ _ _ (dict_get_dict s1 c com_items _ _ (G1 _ _ Hc))).
  rewrite Hct. cbn [negb].
  rewrite (bind_ok _ _ _ _ _ (dict_get_dict s1 c com_items _ _ (G1 _ _ Hc))).
  rewrite Hrt. cbn [negb].
  rewrite (bind_ok (new_dict _) _ s1 _ _ eq_refl).
  set (s2 := set_heap _ s1).
  assert (G2 : forall l o, heap s !! l = Some o -> heap s2 !! l = Some o)
    by (intros; apply lookup_grown, G1; assumption).
  rewrite (bind_ok _ _ _ _ _ (dict_get_dict s2 r items _ _ (G2 _ _ Hr))).
  assert (Hs3 : forall s3, heap s3 = heap s ++ [ODict []; ODict []; ODict []] ->
                exists e,
                  default (VRef (length (heap s1))) (dict_lookup "ext" items) = VRef e
                  /\ heap s3 !! e = Some (ODict ext_items)).
  { intros s3 ->.
    destruct (dict_lookup "ext" items) as [[| | | |e]|] eqn:Lext; try contradiction.
    - destruct (heap s !! e) as [[ed|]|] eqn:He; try contradiction. subst ed.
      exists e. split; [reflexivity|]. apply lookup_grown. exact He.
    - subst ext_items. exists (length (heap s) + 1). split.
      + cbn. rewrite length_app. reflexivity.
      + rewrite lookup_fresh. reflexivity. }
  set (s3 := set_heap (heap s2 ++ [ODict []]) s2).
  assert (Heap3 : heap s3 = heap s ++ [ODict []; ODict []; ODict []]).
  { cbn. rewrite <- !app_assoc. reflexivity. }
  destruct (Hs3 s3 Heap3) as (e & Hdef & He3).
  rewrite Hdef. cbn [is_none].
  rewrite (bind_ok (new_dict _) _ s2 _ _ eq_refl). fold s3.
  assert (G3 : forall l o, heap s !! l = Some o -> heap s3 !! l = Some o)
    by (intros; rewrite Heap3; apply lookup_grown; assumption).
  rewrite (bind_ok _ _ _ _ _ (dict_get_dict s3 r items _ _ (G3 _ _ Hr))).
  rewrite Lraw. cbn [default from_option id is_none].
  rewrite (evaluate_run c e w cl com_items ext_items raw_items categories s3
             Hcats (G3 _ _ Hc) He3 (G3 _ _ Hw) (G3 _ _ Hcl)).
  unfold entered. rewrite Heap3. reflexivity.
Qed.

Lemma dict_lookup_set key k v items :
  dict_lookup key (dict_set k v items)
  = if String.eqb key k then Some v else dict_lookup key items.
Proof.
  induction items as [|[k' v'] items IH]; cbn.
  - reflexivity.
  - destruct (String.eqb_spec k k') as [->|Hk]; cbn.
    + destruct (String.eqb key k'); reflexivity.
    + rewrite IH. destruct (String.eqb_spec key k') as [->|Hkey].
      * destruct (String.eqb_spec k' k); [congruence|reflexivity].
      * reflexivity.
Qed.

Lemma field_grown (h more : list obj) v path w :
  field h v path = Some w -> field (h ++ more) v path = Some w.
Proof.
  revert v. induction path as [|key path IH]; intros v; cbn [field]; [auto|].
  destruct v as [| | | |l]; try discriminate.
  destruct (h !! l) as [[items|]|] eqn:Hl; try discriminate.
  rewrite (lookup_grown _ more _ _ Hl).
  destruct (dict_lookup key items); [apply IH|discriminate].
Qed.

Lemma is_event_for_grown h more com_items ext_items activity ev :
  is_event_for h com_items ext_items activity ev ->
  is_event_for (h ++ more) com_items ext_items activity ev.
Proof.
  intros (h0 & H1 & H2 & H3 & H4 & H5 & H6). exists h0.
  repeat split; try (apply field_grown; assumption).
  pose proof (H6 "record_type") as Hrt.
  rewrite dict_lookup_set in Hrt. cbn [field String.eqb Ascii.eqb Bool.eqb] in Hrt.
  destruct ev as [| | | |l]; try discriminate.
  destruct (h !! l) as [[items|]|] eqn:Hl; try discriminate.
  destruct (dict_lookup "ext" items) as [[| | | |x]|] eqn:Hext; try discriminate.
  destruct (h !! x) as [[xs|]|] eqn:Hx; try discriminate.
  intros key. specialize (H6 key). cbn [field] in H6 |- *.
  rewrite Hl, Hext, Hx in H6.
  rewrite (lookup_grown _ more _ _ Hl), Hext, (lookup_grown _ more _ _ Hx).
  exact H6.
Qed.

(** The record just emitted reads as the event for its activity. *)
Lemma emit_event com_items ext_items activity s :
  is_event_for (heap (emit com_items ext_items activity s))
               com_items ext_items activity (VRef (length (heap s) + 3)).
Proof.
  exists (heap s). unfold emit, event_objects. cbn [heap field].
  rewrite !lookup_fresh. cbn [lookup list_lookup dict_lookup String.eqb Ascii.eqb Bool.eqb].
  rewrite !lookup_fresh. cbn.
  repeat split. intros key. destruct (dict_lookup key _); reflexivity.
Qed.

Lemma emit_fresh_ext h_in com_items ext_items activity s :
  length h_in <= length (heap s) ->
  has_fresh_ext h_in (heap (emit com_items ext_items activity s)) ext_items
                (VRef (length (heap s) + 3)).
Proof.
  intros Hlen. unfold emit, event_objects. cbn [heap].
  exists (length (heap s) + 3), (length (heap s) + 1), (length (heap s) + 2).
  eexists. split; [reflexivity|].
  split; [rewrite lookup_fresh; reflexivity|].
  split; [lia|].
  split; [rewrite lookup_fresh; reflexivity|].
  intros key. apply dict_lookup_set.
Qed.

Lemma has_fresh_ext_grown h_in h more ext_items ev :
  has_fresh_ext h_in h ext_items ev -> has_fresh_ext h_in (h ++ more) ext_items ev.
Proof.
  intros (l & x & y & items' & -> & Hl & Hx & Hx' & Hk).
  exists l, x, y, items'. repeat split; auto using lookup_grown.
Qed.

(** What the loop leaves behind: the old heap untouched at the front,
    and one event per activity that is not listed, in the order of the
    loop. *)
Lemma run_activities_events h_in com_items ext_items categories acts :
  forall s,
    length h_in <= length (heap s) ->
    let s' := run_activities com_items ext_items categories acts s in
    heap s `prefix_of` heap s'
    /\ exists evs,
         yielded s' = yielded s ++ evs
         /\ Forall2 (is_event_for (heap s') com_items ext_items)
                    (List.filter (fun a => negb (listed categories a)) acts) evs
         /\ Forall (has_fresh_ext h_in (heap s') ext_items) evs.
Proof.
  induction acts as [|activity acts IH]; intros s Hlen; cbn [run_activities List.filter].
  - split; [reflexivity|]. exists []. rewrite app_nil_r. auto.
  - destruct (listed categories activity) eqn:Hlisted; cbn [negb].
    + apply IH. exact Hlen.
    + set (s1 := emit com_items ext_items activity s).
      assert (Hlen1 : length h_in <= length (heap s1)).
      { cbn. rewrite length_app. lia. }
      destruct (IH s1 Hlen1) as (Hpre & evs & Hy & Hev & Hfresh).
      split.
      { etransitivity; [|exact Hpre]. cbn. apply prefix_app_r. reflexivity. }
      exists (VRef (length (heap s) + 3) :: evs).
      destruct Hpre as [more Hmore].
      split; [rewrite Hy; cbn; rewrite <- app_assoc; reflexivity|].
      split.
      * constructor; [|exact Hev]. rewrite Hmore.
        apply is_event_for_grown, emit_event.
      * constructor; [|exact Hfresh]. rewrite Hmore.
        apply has_fresh_ext_grown, emit_fresh_ext. exact Hlen.
Qed.

Lemma new_events_app s s' evs :
  yielded s' = yielded s ++ evs -> new_events s s' = evs.
Proof. unfold new_events. intros ->. apply drop_app_length. Qed.

Lemma val_eq_str_default_false (o : option val) (lit : string) :
  o <> Some (VStr lit) -> val_eq_str (default VNone o) lit = false.
Proof.
  intros Hne. destruct o as [[| | |s'|]|]; try reflexivity. cbn.
  destruct (String.eqb_spec s' lit); [congruence|reflexivity].
Qed.

Lemma com_matches_false com_items :
  dict_lookup "cloud_type" com_items <> Some (VStr "azure")
  \/ dict_lookup "record_type" com_items <> Some (VStr "log_profile") ->
  com_matches com_items = false.
Proof.
  unfold com_matches. intros [Hne|Hne];
    rewrite (val_eq_str_default_false _ _ Hne); [reflexivity|].
  apply andb_false_r.
Qed.

(** [eval] returns at one of its first three tests. *)
Lemma eval_skip_com s r items :
  heap s !! r = Some (ODict items) ->
  match section_of (heap s) items "com" with
  | Missing | Null => True
  | Mapping com_items => com_matches com_items = false
  | Malformed => False
  end ->
  eval (VRef r) s = (Ok tt, set_heap (heap s ++ [ODict []]) s).
Proof.
  intros Hr Hcom. unfold section_of in Hcom. unfold eval.
  rewrite (bind_ok (new_dict _) _ s _ _ eq_refl).
  set (s1 := set_heap _ s).
  assert (G1 : forall l o, heap s !! l = Some o -> heap s1 !! l = Some o)
    by (intros; apply lookup_grown; assumption).
  rewrite (bind_ok _ _ _ _ _ (dict_get_dict s1 r items _ _ (G1 _ _ Hr))).
  destruct (dict_lookup "com" items) as [[| | | |c]|] eqn:Lcom;
    try contradiction; cbn [default from_option id is_none].
  - reflexivity.
  - destruct (heap s !! c) as [[cd|]|] eqn:Hc; try contradiction.
    rewrite (bind_ok _ _ _ _ _ (dict_get_dict s1 c cd _ _ (G1 _ _ Hc))).
    unfold com_matches in Hcom.
    destruct (val_eq_str (default VNone (dict_lookup "cloud_type" cd)) "azure");
      cbn [negb]; [|reflexivity].
    rewrite (bind_ok _ _ _ _ _ (dict_get_dict s1 c cd _ _ (G1 _ _ Hc))).
    cbn [andb] in Hcom. rewrite Hcom. reflexivity.
  - assert (Hd : heap s1 !! length (heap s) = Some (ODict [])).
    { cbn. rewrite <- (Nat.add_0_r (length (heap s))) at 1. apply lookup_fresh. }
    rewrite (bind_ok _ _ _ _ _ (dict_get_dict s1 _ [] _ _ Hd)).
    reflexivity.
Qed.

(** [eval] returns at its test of [ext] or of [raw]. *)
Lemma eval_skip_null s r items com_items :
  heap s !! r = Some (ODict items) ->
  section_of (heap s) items "com" = Mapping com_items ->
  com_matches com_items = true ->
  section_of (heap s) items "ext" = Null \/ section_of (heap s) items "raw" = Null ->
  exists more,
    eval (VRef r) s = (Ok tt, set_heap (heap s ++ more) s).
Proof.
  intros Hr Hcom Hmatch Hnull. unfold section_of in Hcom, Hnull.
  destruct (dict_lookup "com" items) as [[| | | |c]|] eqn:Lcom; try discriminate.
  destruct (heap s !! c) as [[cd|]|] eqn:Hc; try discriminate.
  injection Hcom as ->.
  apply andb_prop in Hmatch as [Hct Hrt].
  unfold eval.
  rewrite (bind_ok (new_dict _) _ s _ _ eq_refl).
  set (s1 := set_heap _ s).
  assert (G1 : forall l o, heap s !! l = Some o -> heap s1 !! l = Some o)
    by (intros; apply lookup_grown; assumption).
  rewrite (bind_ok _ _ _ _ _ (dict_get_dict s1 r items _ _ (G1 _ _ Hr))).
  rewrite Lcom. cbn [default from_option id is_none].
  rewrite (bind_ok _ _ _ _ _ (dict_get_dict s1 c com_items _ _ (G1 _ _ Hc))).
  rewrite Hct. cbn [negb].
  rewrite (bind_ok _ _ _ _ _ (dict_get_dict s1 c com_items _ _ (G1 _ _ Hc))).
  rewrite Hrt. cbn [negb].
  rewrite (bind_ok (new_dict _) _ s1 _ _ eq_refl).
  set (s2 := set_heap _ s1).
  assert (G2 : forall l o, heap s !! l = Some o -> heap s2 !! l = Some o)
    by (intros; apply lookup_grown, G1; assumption).
  rewrite (bind_ok _ _ _ _ _ (dict_get_dict s2 r items _ _ (G2 _ _ Hr))).
  destruct (is_none (default (VRef (length (heap s1))) (dict_lookup "ext" items)))
    eqn:Hext.
  - exists [ODict []; ODict []]. unfold ret, s2, s1, set_heap. cbn.
    rewrite <- app_assoc. reflexivity.
  - destruct Hnull as [Hnull|Hnull].
    { destruct (dict_lookup "ext" items) as [[| | | |e]|]; try discriminate.
      destruct (heap s !! e) as [[|]|]; discriminate. }
    rewrite (bind_ok (new_dict _) _ s2 _ _ eq_refl).
    set (s3 := set_heap _ s2).
    assert (G3 : forall l o, heap s !! l = Some o -> heap s3 !! l = Some o)
      by (intros; apply lookup_grown, G2; assumption).
    rewrite (bind_ok _ _ _ _ _ (dict_get_dict s3 r items _ _ (G3 _ _ Hr))).
    destruct (dict_lookup "raw" items) as [[| | | |w]|]; try discriminate.
    + cbn [default from_option id is_none].
      exists [ODict []; ODict []; ODict []]. unfold ret, s3, s2, s1, set_heap. cbn.
      rewrite <- !app_assoc. reflexivity.
    + destruct (heap s !! w) as [[|]|]; discriminate.
Qed.

(** ** Invariants of [eval], on every path *)

Lemma preserves_bind {A B} (P : state -> Prop) (m : M state A) (f : A -> M state B) :
  preserves P m -> (forall a, preserves P (f a)) -> preserves P (bind m f).
Proof.
  intros Hm Hf s Hs. specialize (Hm s Hs). unfold bind.
  destruct (m s) as [[a|e] s']; cbn in *; [apply Hf|]; exact Hm.
Qed.

(** The same when the continuation needs to know what [m] returned. *)
Lemma preserves_bind_value {A B} (P : state -> Prop) (Q : A -> Prop)
    (m : M state A) (f : A -> M state B) :
  (forall s, P s -> P (snd (m s))
                    /\ forall a, fst (m s) = Ok a -> Q a) ->
  (forall a, Q a -> preserves P (f a)) ->
  preserves P (bind m f).
Proof.
  intros Hm Hf s Hs. destruct (Hm s Hs) as [HP HQ]. unfold bind.
  destruct (m s) as [[a|e] s']; cbn in *; [|exact HP].
  apply Hf; auto.
Qed.

Lemma preserves_ret {A} (P : state -> Prop) (a : A) : preserves P (ret a).
Proof. intros s Hs. exact Hs. Qed.

Lemma preserves_if {A} (P : state -> Prop) (b : bool) (m1 m2 : M state A) :
  preserves P m1 -> preserves P m2 -> preserves P (if b then m1 else m2).
Proof. destruct b; auto. Qed.

Lemma preserves_for_each {A} (P : state -> Prop) (xs : list A)
    (body : A -> M state unit) :
  (forall x, preserves P (body x)) -> preserves P (for_each xs body).
Proof.
  intros Hbody. induction xs as [|x xs IH]; cbn [for_each].
  - apply preserves_ret.
  - apply preserves_bind; [apply Hbody|]. intros _. exact IH.
Qed.

Lemma dict_get_state receiver key dflt s : snd (dict_get receiver key dflt s) = s.
Proof. unfold dict_get. destruct (heap_dict_get _ _ _ _); reflexivity. Qed.

Lemma contains_state container item s : snd (contains container item s) = s.
Proof. unfold contains. destruct (heap_contains _ _ _); reflexivity. Qed.

Lemma preserves_dict_get (P : state -> Prop) receiver key dflt :
  preserves P (dict_get receiver key dflt).
Proof. intros s Hs. rewrite dict_get_state. exact Hs. Qed.

Lemma preserves_contains (P : state -> Prop) container item :
  preserves P (contains container item).
Proof. intros s Hs. rewrite contains_state. exact Hs. Qed.

Lemma sound_grow s0 ext_items s s' more :
  sound s0 ext_items s ->
  heap s' = heap s ++ more -> yielded s' = yielded s ->
  sound s0 ext_items s'.
Proof.
  intros (Hpre & evs & Hy & Hev) Hh Hy'. split.
  - rewrite Hh. apply prefix_app_r. exact Hpre.
  - exists evs. split; [congruence|]. rewrite Hh.
    eapply Forall_impl; [exact Hev|]. intros ev. apply has_fresh_ext_grown.
Qed.

Lemma sound_yield s0 ext_items s ev :
  sound s0 ext_items s ->
  has_fresh_ext (heap s0) (heap s) ext_items ev ->
  sound s0 ext_items (snd (yield ev s)).
Proof.
  intros (Hpre & evs & Hy & Hev) Hfresh. split; [exact Hpre|].
  exists (evs ++ [ev]). cbn. split.
  - rewrite Hy, <- app_assoc. reflexivity.
  - apply Forall_app. split; [exact Hev|]. constructor; [exact Hfresh|constructor].
Qed.

Lemma sound_lookup s0 ext_items s (l : loc) o :
  sound s0 ext_items s -> heap s0 !! l = Some o -> heap s !! l = Some o.
Proof. intros (Hpre & _) Hl. eapply prefix_lookup_Some; eassumption. Qed.

Lemma sound_length s0 ext_items s :
  sound s0 ext_items s -> length (heap s0) <= length (heap s).
Proof. intros (Hpre & _). apply prefix_length. exact Hpre. Qed.

Lemma preserves_sound_new_dict s0 ext_items items :
  preserves (sound s0 ext_items) (new_dict items).
Proof. intros s Hs. eapply sound_grow; [exact Hs| |]; reflexivity. Qed.

Lemma preserves_sound_log_info s0 ext_items msg args :
  preserves (sound s0 ext_items) (log_info msg args).
Proof.
  intros s Hs. eapply (sound_grow _ _ s _ []); [exact Hs| |reflexivity].
  cbn. rewrite app_nil_r. reflexivity.
Qed.

(** Building an event from the input's [ext] and yielding it, for any
    [com] whatever. *)
Lemma preserves_sound_event s0 ext_items (e : loc) com activity :
  heap s0 !! e = Some (ODict ext_items) ->
  preserves (sound s0 ext_items)
            (event <- _get_log_profile_activity_event com (VRef e) activity ;;
             yield event).
Proof.
  intros He s Hs. unfold _get_log_profile_activity_event, bind at 1 2.
  pose proof (dict_get_state com "cloud_type" VNone s) as D1.
  destruct (dict_get com "cloud_type" VNone s) as [[ct|?] s1']; cbn in D1; subst s1';
    [|exact Hs].
  unfold bind at 1.
  pose proof (dict_get_state com "reference" VNone s) as D2.
  destruct (dict_get com "reference" VNone s) as [[reference|?] s1']; cbn in D2;
    subst s1'; [|exact Hs].
  rewrite (bind_ok (gets heap) _ s (heap s) s eq_refl).
  rewrite (bind_ok (new_dict _) _ s _ _ eq_refl).
  set (s1 := set_heap _ s).
  assert (S1 : sound s0 ext_items s1) by (apply preserves_sound_new_dict, Hs).
  assert (H1o : heap s1 !! length (heap s)
                = Some (ODict [("record_type", VStr event_record_type)])).
  { cbn. rewrite <- (Nat.add_0_r (length (heap s))) at 1. apply lookup_fresh. }
  rewrite (bind_ok _ _ _ _ _
             (merge_dicts_run s1 _ _ _ _ (sound_lookup _ _ _ _ _ S1 He) H1o)).
  set (s2 := set_heap _ s1).
  assert (S2 : sound s0 ext_items s2) by (eapply sound_grow; [exact S1| |]; reflexivity).
  unfold bind at 1.
  pose proof (dict_get_state com "cloud_type" VNone s2) as D3.
  destruct (dict_get com "cloud_type" VNone s2) as [[ct'|?] s3']; cbn in D3; subst s3';
    [|exact S2].
  rewrite (bind_ok (new_dict _) _ s2 _ _ eq_refl).
  set (s3 := set_heap _ s2).
  rewrite (bind_ok (new_dict _) _ s3 _ _ eq_refl).
  set (s4 := set_heap _ s3).
  rewrite (bind_ok (log_info _ _) _ s4 tt _ eq_refl).
  unfold ret.
  apply sound_yield.
  - eapply (sound_grow _ _ s2 _ [_; _]); [exact S2| |reflexivity].
    cbn. rewrite <- !app_assoc. reflexivity.
  - exists (length (heap s3)), (length (heap s1)), (length (heap s2)).
    eexists. split; [reflexivity|].
    split.
    { change (heap s4) with (heap s3 ++ [ODict [("ext", VRef (length (heap s1)));
                                                ("com", VRef (length (heap s2)))]]).
      rewrite <- (Nat.add_0_r (length (heap s3))) at 1. apply lookup_fresh. }
    split.
    { pose proof (sound_length _ _ _ S1) as Hlen. exact Hlen. }
    split.
    { unfold s4, s3. cbn [heap set_heap]. do 2 apply lookup_grown.
      unfold s2. cbn [heap set_heap fold_left fst snd].
      rewrite <- (Nat.add_0_r (length (heap s1))) at 1. rewrite lookup_fresh.
      reflexivity. }
    intros key. apply dict_lookup_set.
Qed.

Lemma preserves_sound_evaluate s0 ext_items (e : loc) com raw :
  heap s0 !! e = Some (ODict ext_items) ->
  preserves (sound s0 ext_items)
            (_evaluate_log_profile_for_activities com (VRef e) raw).
Proof.
  intros He. unfold _evaluate_log_profile_for_activities.
  apply preserves_bind; [apply preserves_dict_get|]. intros categories.
  apply preserves_bind; [apply preserves_sound_log_info|]. intros _.
  apply preserves_for_each. intros activity.
  apply preserves_bind; [apply preserves_dict_get|]. intros categories'.
  apply preserves_bind; [apply preserves_contains|]. intros present.
  apply preserves_if; [|apply preserves_ret].
  apply preserves_sound_event. exact He.
Qed.

Lemma preserves_sound_eval s0 (r e : loc) items ext_items :
  heap s0 !! r = Some (ODict items) ->
  dict_lookup "ext" items = Some (VRef e) ->
  heap s0 !! e = Some (ODict ext_items) ->
  preserves (sound s0 ext_items) (eval (VRef r)).
Proof.
  intros Hr Hext He. unfold eval.
  apply preserves_bind; [apply preserves_sound_new_dict|]. intros d1.
  apply preserves_bind; [apply preserves_dict_get|]. intros com.
  apply preserves_if; [apply preserves_ret|].
  apply preserves_bind; [apply preserves_dict_get|]. intros cloud_type.
  apply preserves_if; [apply preserves_ret|].
  apply preserves_bind; [apply preserves_dict_get|]. intros record_type.
  apply preserves_if; [apply preserves_ret|].
  apply preserves_bind; [apply preserves_sound_new_dict|]. intros d2.
  apply (preserves_bind_value _ (fun v => v = VRef e)).
  { intros s Hs. rewrite (dict_get_dict s r items _ _ (sound_lookup _ _ _ _ _ Hs Hr)).
    rewrite Hext. cbn. split; [exact Hs|]. intros a [= <-]. reflexivity. }
  intros ext ->. cbn [is_none].
  apply preserves_bind; [apply preserves_sound_new_dict|]. intros d3.
  apply preserves_bind; [apply preserves_dict_get|]. intros raw.
  apply preserves_if; [apply preserves_ret|].
  apply preserves_sound_evaluate. exact He.
Qed.

(** ** [eval] only adds, whatever it is given *)

Lemma grown_refl s : grown s s.
Proof. repeat split; reflexivity. Qed.

Lemma grown_step s0 s s' :
  grown s0 s ->
  heap s `prefix_of` heap s' -> yielded s `prefix_of` yielded s' ->
  log s `prefix_of` log s' ->
  grown s0 s'.
Proof.
  intros (H1 & H2 & H3) G1 G2 G3. repeat split; etransitivity; eassumption.
Qed.

Lemma preserves_grown_new_dict s0 items : preserves (grown s0) (new_dict items).
Proof.
  intros s Hs. eapply grown_step; [exact Hs| | |]; cbn;
    [apply prefix_app_r|..]; reflexivity.
Qed.

Lemma preserves_grown_log_info s0 msg args : preserves (grown s0) (log_info msg args).
Proof.
  intros s Hs. eapply grown_step; [exact Hs| | |]; cbn;
    [| |apply prefix_app_r]; reflexivity.
Qed.

Lemma preserves_grown_yield s0 v : preserves (grown s0) (yield v).
Proof.
  intros s Hs. eapply grown_step; [exact Hs| | |]; cbn;
    [|apply prefix_app_r|]; reflexivity.
Qed.

Lemma preserves_grown_merge_dicts s0 a b : preserves (grown s0) (merge_dicts a b).
Proof.
  intros s Hs. unfold merge_dicts.
  destruct (heap_items (heap s) a); [|exact Hs].
  destruct (heap_items (heap s) b); [|exact Hs].
  apply preserves_grown_new_dict. exact Hs.
Qed.

Lemma preserves_grown_get_event s0 com ext activity :
  preserves (grown s0) (_get_log_profile_activity_event com ext activity).
Proof.
  unfold _get_log_profile_activity_event.
  apply preserves_bind; [apply preserves_dict_get|]. intros cloud_type.
  apply preserves_bind; [apply preserves_dict_get|]. intros reference.
  apply preserves_bind; [intros s Hs; exact Hs|]. intros h.
  apply preserves_bind; [apply preserves_grown_new_dict|]. intros override.
  apply preserves_bind; [apply preserves_grown_merge_dicts|]. intros ext'.
  apply preserves_bind; [apply preserves_dict_get|]. intros cloud_type'.
  apply preserves_bind; [apply preserves_grown_new_dict|]. intros com'.
  apply preserves_bind; [apply preserves_grown_new_dict|]. intros event_record.
  apply preserves_bind; [apply preserves_grown_log_info|]. intros _.
  apply preserves_ret.
Qed.

Lemma preserves_grown_eval s0 record : preserves (grown s0) (eval record).
Proof.
  unfold eval.
  apply preserves_bind; [apply preserves_grown_new_dict|]. intros d1.
  apply preserves_bind; [apply preserves_dict_get|]. intros com.
  apply preserves_if; [apply preserves_ret|].
  apply preserves_bind; [apply preserves_dict_get|]. intros cloud_type.
  apply preserves_if; [apply preserves_ret|].
  apply preserves_bind; [apply preserves_dict_get|]. intros record_type.
  apply preserves_if; [apply preserves_ret|].
  apply preserves_bind; [apply preserves_grown_new_dict|]. intros d2.
  apply preserves_bind; [apply preserves_dict_get|]. intros ext.
  apply preserves_if; [apply preserves_ret|].
  apply preserves_bind; [apply preserves_grown_new_dict|]. intros d3.
  apply preserves_bind; [apply preserves_dict_get|]. intros raw.
  apply preserves_if; [apply preserves_ret|].
  unfold _evaluate_log_profile_for_activities.
  apply preserves_bind; [apply preserves_dict_get|]. intros categories.
  apply preserves_bind; [apply preserves_grown_log_info|]. intros _.
  apply preserves_for_each. intros activity.
  apply preserves_bind; [apply preserves_dict_get|]. intros categories'.
  apply preserves_bind; [apply preserves_contains|]. intros present.
  apply preserves_if; [|apply preserves_ret].
  apply preserves_bind; [apply preserves_grown_get_event|]. intros event.
  apply preserves_grown_yield.
Qed.
End EvalFacts.

Section EvalClaims.
Import AzLogProfile EvalSpec.
Context {E : Externals}.

(** C2 (as amended).  For a record whose [com] is missing, null or a
    mapping, [eval] returns without raising and yields nothing when [com]
    is missing, null, empty or without the expected discriminators, or
    when [ext] or [raw] is null.  A missing or empty [ext] is not such a
    case: with matching [com] and a list of categories in [raw], the
    record is evaluated against an empty [ext] and yields one event per
    activity left out. *)
Theorem eval_skips_inapplicable_sections s r items :
  heap s !! r = Some (ODict items) ->
  section_of (heap s) items "com" <> Malformed ->
  ((match section_of (heap s) items "com" with
    | Mapping com_items => com_matches com_items = false
    | _ => True
    end
    \/ section_of (heap s) items "ext" = Null
    \/ section_of (heap s) items "raw" = Null) ->
   exists s', eval (VRef r) s = (Ok tt, s') /\ new_events s s' = [])
  /\ (forall com_items raw_items cl categories,
        section_of (heap s) items "com" = Mapping com_items ->
        com_matches com_items = true ->
        section_of (heap s) items "ext" = Missing
        \/ section_of (heap s) items "ext" = Mapping [] ->
        section_of (heap s) items "raw" = Mapping raw_items ->
        dict_lookup "categories" raw_items = Some (VRef cl) ->
        heap s !! cl = Some (OList categories) ->
        exists s',
          eval (VRef r) s = (Ok tt, s')
          /\ Forall2 (is_event_for (heap s') com_items [])
                     (missing_activities categories) (new_events s s')).
Proof.
  intros Hr Hwf. split.
  - intros Hskip.
    destruct (section_of (heap s) items "com") as [| |com_items|] eqn:Hcom;
      try contradiction.
    + eexists. split; [apply (eval_skip_com s r items Hr); rewrite Hcom; exact I|].
      apply new_events_app. cbn. rewrite app_nil_r. reflexivity.
    + eexists. split; [apply (eval_skip_com s r items Hr); rewrite Hcom; exact I|].
      apply new_events_app. cbn. rewrite app_nil_r. reflexivity.
    + destruct (com_matches com_items) eqn:Hmatch.
      * destruct Hskip as [Hskip|Hskip]; [discriminate|].
        destruct (eval_skip_null s r items com_items Hr Hcom Hmatch Hskip)
          as (more & Hrun).
        eexists. split; [exact Hrun|].
        apply new_events_app. cbn. rewrite app_nil_r. reflexivity.
      * eexists. split.
        { apply (eval_skip_com s r items Hr). rewrite Hcom. exact Hmatch. }
        apply new_events_app. cbn. rewrite app_nil_r. reflexivity.
  - intros com_items raw_items cl categories Hcom Hmatch Hext Hraw Hcats Hcl.
    assert (Hext' : match section_of (heap s) items "ext" with
                    | Missing => [] = ([] : list (string * val))
                    | Mapping d => [] = d
                    | Null | Malformed => False
                    end).
    { destruct Hext as [->| ->]; reflexivity. }
    rewrite (eval_run s r items com_items [] raw_items cl categories
               Hr Hcom Hmatch Hext' Hraw Hcats Hcl).
    eexists. split; [reflexivity|].
    destruct (run_activities_events (heap s) com_items [] categories activities
                (entered (VRef cl) s)) as (_ & evs & Hy & Hev & _).
    { cbn. rewrite length_app. lia. }
    rewrite (new_events_app s _ evs Hy). exact Hev.
Qed.

(** C3.  For an Azure log profile whose [ext] is absent or a mapping
    and whose [raw.categories] is a list, [eval] returns and yields one
    event per activity that the list leaves out, in the fixed order
    Write, Delete, Action whatever the order of the list; for the list
    holding only 'Write' these are exactly two events, for 'Delete' then
    for 'Action', each with [com.record_type] set to the event's type.
    (With [ext] None, [eval] returns before the loop.) *)
Theorem eval_emits_missing_activities_in_order s r items com_items ext_items
    raw_items cl categories :
  heap s !! r = Some (ODict items) ->
  section_of (heap s) items "com" = Mapping com_items ->
  com_matches com_items = true ->
  match section_of (heap s) items "ext" with
  | Missing => ext_items = []
  | Mapping d => ext_items = d
  | Null | Malformed => False
  end ->
  section_of (heap s) items "raw" = Mapping raw_items ->
  dict_lookup "categories" raw_items = Some (VRef cl) ->
  heap s !! cl = Some (OList categories) ->
  exists s',
    eval (VRef r) s = (Ok tt, s')
    /\ Forall2 (is_event_for (heap s') com_items ext_items)
               (missing_activities categories) (new_events s s')
    /\ (categories = [VStr "Write"] ->
        exists ev1 ev2,
          new_events s s' = [ev1; ev2]
          /\ is_event_for (heap s') com_items ext_items "Delete" ev1
          /\ is_event_for (heap s') com_items ext_items "Action" ev2
          /\ field (heap s') ev1 ["com"; "record_type"]
             = Some (VStr "log_profile_missing_activity_type_event")
          /\ field (heap s') ev2 ["com"; "record_type"]
             = Some (VStr "log_profile_missing_activity_type_event")).
Proof.
  intros Hr Hcom Hmatch Hext Hraw Hcats Hcl.
  rewrite (eval_run s r items com_items ext_items raw_items cl categories
             Hr Hcom Hmatch Hext Hraw Hcats Hcl).
  eexists. split; [reflexivity|].
  destruct (run_activities_events (heap s) com_items ext_items categories
              activities (entered (VRef cl) s)) as (_ & evs & Hy & Hev & _).
  { cbn. rewrite length_app. lia. }
  rewrite (new_events_app s _ evs Hy).
  split; [exact Hev|].
  intros ->. cbn in Hev.
  inversion Hev as [|a1 ev1 l1 evs1 H1 Hrest]; subst.
  inversion Hrest as [|a2 ev2 l2 evs2 H2 Hnil]; subst.
  inversion Hnil; subst.
  exists ev1, ev2. split; [reflexivity|].
  split; [exact H1|]. split; [exact H2|].
  destruct H1 as (? & _ & Hrt1 & _). destruct H2 as (? & _ & Hrt2 & _).
  split; assumption.
Qed.

(** C4.  For a record whose [com] is missing, null, or a mapping whose
    [cloud_type] is not 'azure' or whose [record_type] is not
    'log_profile', [eval] returns and yields nothing, whatever [ext] and
    [raw] hold. *)
Theorem eval_skips_other_records s r items :
  heap s !! r = Some (ODict items) ->
  section_of (heap s) items "com" = Missing
  \/ section_of (heap s) items "com" = Null
  \/ (exists com_items,
        section_of (heap s) items "com" = Mapping com_items
        /\ (dict_lookup "cloud_type" com_items <> Some (VStr "azure")
            \/ dict_lookup "record_type" com_items <> Some (VStr "log_profile"))) ->
  exists s',
    eval (VRef r) s = (Ok tt, s')
    /\ new_events s s' = []
    /\ yielded s' = yielded s.
Proof.
  intros Hr Hcom.
  eexists. split.
  - apply (eval_skip_com s r items Hr).
    destruct Hcom as [->|[->|(com_items & -> & Hne)]]; try exact I.
    apply com_matches_false. exact Hne.
  - split; [|reflexivity].
    apply new_events_app. cbn. rewrite app_nil_r. reflexivity.
Qed.

(** C5.  On every path of [eval], for a record whose [ext] is a
    mapping: each event yielded keeps its [ext] in an object that did not
    exist before the call, whose items answer like the input's with only
    [record_type] set to the event's type; the input's [ext] object, like
    every object of the input heap, is as it was.  ([merge_dicts] is
    taken from the specification.) *)
Theorem event_ext_is_fresh_override s (r e : loc) items ext_items :
  heap s !! r = Some (ODict items) ->
  dict_lookup "ext" items = Some (VRef e) ->
  heap s !! e = Some (ODict ext_items) ->
  let s' := snd (eval (VRef r) s) in
  Forall (has_fresh_ext (heap s) (heap s') ext_items) (new_events s s')
  /\ heap s' !! e = Some (ODict ext_items)
  /\ heap s `prefix_of` heap s'.
Proof.
  intros Hr Hext He s'.
  assert (Hinit : sound s ext_items s).
  { split; [reflexivity|]. exists []. rewrite app_nil_r. auto. }
  pose proof (preserves_sound_eval s r e items ext_items Hr Hext He s Hinit)
    as Hs'. fold s' in Hs'.
  pose proof (sound_lookup _ _ _ _ _ Hs' He) as He'.
  destruct Hs' as (Hpre & evs & Hy & Hev).
  rewrite (new_events_app s s' evs Hy). auto.
Qed.
End EvalClaims.

(** ** Closed instances for the evaluator *)

Section EvalExamples.
Import AzLogProfile EvalSpec Fixtures.

(** C2, counterexample: the log profile record without its [ext]
    section.  It is not skipped: [eval] yields the two events. *)
Lemma eval_evaluates_record_without_ext :
  profile_heap !! 5 = Some (ODict [("com", VRef 1); ("raw", VRef 3)])
  /\ section_of profile_heap [("com", VRef 1); ("raw", VRef 3)] "ext" = Missing
  /\ fst (eval (E := plain_externals) (VRef 5) profile_state) = Ok tt
  /\ new_events profile_state (snd (eval (E := plain_externals) (VRef 5) profile_state))
     = [VRef 16; VRef 20].
Proof. vm_compute. repeat split. Qed.

Lemma eval_skips_inapplicable_sections_witness :
  heap profile_state !! 7
  = Some (ODict [("com", VRef 8); ("ext", VRef 2); ("raw", VRef 3)])
  /\ exists s',
       eval (E := plain_externals) (VRef 7) profile_state = (Ok tt, s')
       /\ new_events profile_state s' = [].
Proof.
  split; [reflexivity|].
  destruct (eval_skips_inapplicable_sections (E := plain_externals)
              profile_state 7 [("com", VRef 8); ("ext", VRef 2); ("raw", VRef 3)])
    as [Hskip _]; [reflexivity|discriminate|].
  apply Hskip. left. reflexivity.
Defined.

(** C3, counterexample: an Azure log profile with [raw.categories]
    holding only 'Write', whose [ext] is None.  [eval] returns at its
    test of [ext] and yields no event. *)
Lemma eval_yields_nothing_for_null_ext :
  heap null_ext_state !! 0
  = Some (ODict [("com", VRef 1); ("ext", VNone); ("raw", VRef 2)])
  /\ field (heap null_ext_state) (VRef 0) ["com"; "cloud_type"] = Some (VStr "azure")
  /\ field (heap null_ext_state) (VRef 0) ["com"; "record_type"]
     = Some (VStr "log_profile")
  /\ field (heap null_ext_state) (VRef 0) ["raw"; "categories"] = Some (VRef 3)
  /\ heap null_ext_state !! 3 = Some (OList [VStr "Write"])
  /\ fst (eval (E := plain_externals) (VRef 0) null_ext_state) = Ok tt
  /\ new_events null_ext_state
       (snd (eval (E := plain_externals) (VRef 0) null_ext_state)) = []
  /\ log (snd (eval (E := plain_externals) (VRef 0) null_ext_state)) = [].
Proof. vm_compute. repeat split. Qed.

Lemma eval_emits_missing_activities_in_order_witness :
  heap profile_state !! 0
  = Some (ODict [("com", VRef 1); ("ext", VRef 2); ("raw", VRef 3)])
  /\ heap profile_state !! 4 = Some (OList [VStr "Write"])
  /\ exists s',
       eval (E := plain_externals) (VRef 0) profile_state = (Ok tt, s')
       /\ exists ev1 ev2,
            new_events profile_state s' = [ev1; ev2]
            /\ field (heap s') ev1 ["com"; "record_type"]
               = Some (VStr "log_profile_missing_activity_type_event")
            /\ field (heap s') ev2 ["com"; "record_type"]
               = Some (VStr "log_profile_missing_activity_type_event").
Proof.
  split; [reflexivity|]. split; [reflexivity|].
  destruct (eval_emits_missing_activities_in_order (E := plain_externals)
              profile_state 0
              [("com", VRef 1); ("ext", VRef 2); ("raw", VRef 3)]
              [("cloud_type", VStr "azure"); ("record_type", VStr "log_profile");
               ("reference", VStr "default")]
              [("record_type", VStr "log_profile"); ("subscription_id", VStr "s1")]
              [("categories", VRef 4); ("locations", VRef 9)]
              4 [VStr "Write"])
    as (s' & Hrun & _ & Honly); try reflexivity.
  exists s'. split; [exact Hrun|].
  destruct (Honly eq_refl) as (ev1 & ev2 & Hnew & _ & _ & H1 & H2).
  exists ev1, ev2. auto.
Defined.

Lemma eval_skips_other_records_witness :
  heap profile_state !! 7
  = Some (ODict [("com", VRef 8); ("ext", VRef 2); ("raw", VRef 3)])
  /\ dict_lookup "cloud_type"
       [("cloud_type", VStr "gcp"); ("record_type", VStr "log_profile");
        ("reference", VStr "default")]
     <> Some (VStr "azure")
  /\ exists s',
       eval (E := plain_externals) (VRef 7) profile_state = (Ok tt, s')
       /\ new_events profile_state s' = [].
Proof.
  split; [reflexivity|]. split; [discriminate|].
  destruct (eval_skips_other_records (E := plain_externals) profile_state 7
              [("com", VRef 8); ("ext", VRef 2); ("raw", VRef 3)] eq_refl)
    as (s' & Hrun & Hnew & _).
  - right. right. eexists. split; [reflexivity|]. left. discriminate.
  - exists s'. auto.
Defined.

Lemma event_ext_is_fresh_override_witness :
  heap profile_state !! 2
  = Some (ODict [("record_type", VStr "log_profile"); ("subscription_id", VStr "s1")])
  /\ heap (snd (eval (E := plain_externals) (VRef 0) profile_state)) !! 2
     = Some (ODict [("record_type", VStr "log_profile"); ("subscription_id", VStr "s1")])
  /\ Forall (has_fresh_ext (heap profile_state)
               (heap (snd (eval (E := plain_externals) (VRef 0) profile_state)))
               [("record_type", VStr "log_profile"); ("subscription_id", VStr "s1")])
            (new_events profile_state
               (snd (eval (E := plain_externals) (VRef 0) profile_state))).
Proof.
  split; [reflexivity|].
  destruct (event_ext_is_fresh_override (E := plain_externals) profile_state 0 2
              [("com", VRef 1); ("ext", VRef 2); ("raw", VRef 3)]
              [("record_type", VStr "log_profile"); ("subscription_id", VStr "s1")]
              eq_refl eq_refl eq_refl)
    as (Hfresh & Hsame & _).
  split; assumption.
Defined.
End EvalExamples.

(* ===================================================================== *)
(** * Further properties of the sink                                      *)
(* ===================================================================== *)

Section SinkMore.
Import EmailAlert SinkSpec.
Context {E : Externals} {T : Transport}.

Ltac split_answers :=
  repeat (cbn;
          match goal with
          | |- context [match respond ?h ?c with _ => _ end] =>
              destruct (respond h c) eqn:?
          | |- context [if is_SMTPException ?e then _ else _] =>
              destruct (is_SMTPException e) eqn:?
          end).

Lemma outgoing_body_stored k :
  outgoing_body (set_body (outgoing_body k) k) = outgoing_body k.
Proof. unfold outgoing_body. destruct k as [? ? ? ? ? ? buf ? ? ?]; cbn. destruct buf; reflexivity. Qed.

(** Whatever happens, [done] only appends to the calls made, leaves the
    heap alone, and without [use_ssl] neither logs in nor touches the
    debug level. *)
Lemma done_frame s :
  heap (snd (done s)) = heap s
  /\ exists cs,
       calls (snd (done s)) = calls s ++ cs
       /\ (use_ssl (self s) = false ->
           existsb is_login cs = false
           /\ debuglevel (snd (done s)) = debuglevel s).
Proof.
  unfold done. rewrite (bind_ok _ _ _ _ _ (build_message_run s)).
  destruct (store_body_envelope s) as (_ & _ & _ & _ & Hssl).
  destruct (store_body_frame s) as (Hh & Hc & _ & _).
  assert (Hd : debuglevel (store_body s) = debuglevel s).
  { unfold store_body. destruct (stringbuffer (self s)); reflexivity. }
  rewrite <- Hh, <- Hc, <- Hssl, <- Hd.
  generalize (message_of (self s)). generalize (store_body s). clear.
  intros s m.
  unfold _prepare_smtp_session, bind, gets, modify, set_debuglevel,
    try_except_finally, quit, call, log_error.
  destruct s as [h k c q d l]; cbn. destruct (use_ssl k); split_answers;
    (split; [reflexivity|]); eexists;
    (split; [rewrite <- ?app_assoc; reflexivity|]);
    intros; try discriminate; split; reflexivity.
Qed.

Lemma prepare_refused s e :
  respond (calls s) (connect_call (self s)) = Some e ->
  _prepare_smtp_session s
  = (Raise e, {| heap := heap s; self := self s;
                 calls := calls s ++ [connect_call (self s)];
                 session := Unconnected; debuglevel := debuglevel s;
                 log := log s |}).
Proof.
  unfold _prepare_smtp_session, connect_call, bind, gets, modify, call.
  destruct s as [h k c q d l]; cbn. destruct (use_ssl k); cbn; intros ->; reflexivity.
Qed.

Lemma prepare_login_refused s e :
  use_ssl (self s) = true ->
  respond (calls s) (connect_call (self s)) = None ->
  respond (calls s ++ [connect_call (self s)])
          (CallLogin (username (self s)) (password (self s))) = Some e ->
  _prepare_smtp_session s
  = (Raise e, {| heap := heap s; self := self s;
                 calls := calls s ++ session_calls (self s);
                 session := Connected; debuglevel := true;
                 log := log s |}).
Proof.
  unfold _prepare_smtp_session, connect_call, session_calls, bind, gets, modify,
    set_debuglevel, call.
  destruct s as [h k c q d l]; cbn. intros ->. cbn. intros ->. cbn. intros ->. cbn.
  rewrite <- app_assoc. reflexivity.
Qed.

Lemma store_body_connect s :
  connect_call (self (store_body s)) = connect_call (self s)
  /\ username (self (store_body s)) = username (self s)
  /\ password (self (store_body s)) = password (self s).
Proof. rewrite store_body_self. destruct (self s); cbn; auto. Qed.

Lemma done_keeps_buffer_eq s :
  stringbuffer (self (snd (done s))) = stringbuffer (self s).
Proof. rewrite done_self, store_body_self. destruct (self s); reflexivity. Qed.

(** X1.  [done] never empties the buffer: on every path the fragments are
    still there afterwards, and a second [done] that obtains its session
    sends the same body again. *)
Theorem done_keeps_buffer s :
  let s1 := snd (done s) in
  stringbuffer (self s1) = stringbuffer (self s)
  /\ (accepts (calls s1) (session_calls (self s1)) = true ->
      sent_bodies (new_calls s1 (snd (done s1))) = [[outgoing_body (self s)]]).
Proof.
  intros s1.
  assert (Hself : self s1 = set_body (outgoing_body (self s)) (self s)).
  { unfold s1. rewrite done_self. apply store_body_self. }
  split.
  - rewrite Hself. destruct (self s); reflexivity.
  - intros Hacc. rewrite (done_sent_bodies s1 Hacc), Hself, outgoing_body_stored.
    reflexivity.
Qed.

(** X2.  When the constructor of the session raises (nothing listens,
    the server answers with an error), [done] raises the same exception:
    nothing is sent, nothing is logged, no session is closed; the body
    field has been overwritten all the same. *)
Theorem done_propagates_connection_failure s e :
  respond (calls s) (connect_call (self s)) = Some e ->
  exists s',
    done s = (Raise e, s')
    /\ calls s' = calls s ++ [connect_call (self s)]
    /\ session s' = Unconnected
    /\ log s' = log s
    /\ body (self s') = outgoing_body (self s).
Proof.
  intros Hrefused. unfold done.
  rewrite (bind_ok _ _ _ _ _ (build_message_run s)).
  destruct (store_body_frame s) as (Hh & Hc & Hq & Hl).
  destruct (store_body_connect s) as (Hcc & _ & _).
  rewrite (bind_raise _ _ _ e _ (prepare_refused (store_body s) e
             ltac:(rewrite Hc, Hcc; exact Hrefused))).
  eexists. split; [reflexivity|]. cbn.
  rewrite Hc, Hcc, Hl, store_body_self. destruct (self s); auto.
Qed.

(** X3.  Over SSL, when the server rejects the login, [done] raises the
    login error with the connection open: no mail is sent, nothing is
    logged, and [quit] is never called. *)
Theorem done_leaves_session_open_on_login_failure s e :
  use_ssl (self s) = true ->
  respond (calls s) (connect_call (self s)) = None ->
  respond (calls s ++ [connect_call (self s)])
          (CallLogin (username (self s)) (password (self s))) = Some e ->
  exists s',
    done s = (Raise e, s')
    /\ new_calls s s'
       = [connect_call (self s); CallLogin (username (self s)) (password (self s))]
    /\ session s' = Connected
    /\ log s' = log s.
Proof.
  intros Hssl Hconnect Hlogin. unfold done.
  rewrite (bind_ok _ _ _ _ _ (build_message_run s)).
  destruct (store_body_frame s) as (Hh & Hc & Hq & Hl).
  destruct (store_body_connect s) as (Hcc & Hu & Hp).
  destruct (store_body_envelope s) as (_ & _ & _ & Hsc & Hssl').
  rewrite (bind_raise _ _ _ e _ (prepare_login_refused (store_body s) e
             ltac:(rewrite Hssl'; exact Hssl)
             ltac:(rewrite Hc, Hcc; exact Hconnect)
             ltac:(rewrite Hc, Hcc, Hu, Hp; exact Hlogin))).
  eexists. split; [reflexivity|]. unfold new_calls. cbn.
  rewrite Hc, Hsc, Hl, drop_app_length.
  unfold session_calls, connect_call. rewrite Hssl. auto.
Qed.

(** X4.  An exception from [sendmail] that is not an [SMTPException] (a
    socket error, say) is not handled: the session is closed by the
    [finally] clause and the exception leaves [done], unlogged. *)
Theorem done_propagates_other_send_errors s e :
  let k := self s in
  let send := CallSendmail (sender k) (to k) (message_of k) in
  let hist := calls s ++ session_calls k in
  accepts (calls s) (session_calls k) = true ->
  respond hist send = Some e ->
  is_SMTPException e = false ->
  respond (hist ++ [send]) CallQuit = None ->
  exists s',
    done s = (Raise e, s')
    /\ session s' = Closed
    /\ log s' = log s
    /\ new_calls s s' = session_calls k ++ [send; CallQuit].
Proof.
  intros k send hist Hacc Hsend Hother Hquit.
  destruct (store_body_envelope s) as (Hs & Ht & _ & Hc & _).
  pose proof (done_run s Hacc) as Hrun. cbn zeta in Hrun.
  rewrite Hs, Ht, Hc in Hrun. fold k send hist in Hrun.
  rewrite Hsend, Hquit, Hother in Hrun.
  eexists. split; [exact Hrun|]. unfold new_calls. cbn.
  unfold hist. rewrite <- app_assoc, drop_app_length. auto.
Qed.

(** X5.  When the closing [quit] raises, that exception is what leaves
    [done], whether the send had succeeded or failed; the session is
    closed. *)
Theorem done_raises_what_quit_raises s e' :
  let k := self s in
  let send := CallSendmail (sender k) (to k) (message_of k) in
  let hist := calls s ++ session_calls k in
  accepts (calls s) (session_calls k) = true ->
  respond (hist ++ [send]) CallQuit = Some e' ->
  exists s', done s = (Raise e', s') /\ session s' = Closed.
Proof.
  intros k send hist Hacc Hquit.
  destruct (store_body_envelope s) as (Hs & Ht & _ & Hc & _).
  pose proof (done_run s Hacc) as Hrun. cbn zeta in Hrun.
  rewrite Hs, Ht, Hc in Hrun. fold k send hist in Hrun.
  rewrite Hquit in Hrun.
  exists (snd (done s)). rewrite Hrun. cbn [snd session].
  split; [|reflexivity]. destruct (respond hist send); reflexivity.
Qed.

(** X6.  When the server accepts every call, [done] returns after
    exactly one [sendmail] from the sender to the recipient list, of a
    message with the date, the subject, the sender, the recipients joined
    by a comma and a space, and one text part; the session is closed and
    nothing is logged. *)
Theorem done_delivers_one_message s :
  let k := self s in
  let message := {| msg_date := formatdate;
                    msg_subject := subject k;
                    msg_from := sender k;
                    msg_to := String.concat ", " (to k);
                    msg_parts := [outgoing_body k] |} in
  accepts (calls s) (session_calls k ++ [CallSendmail (sender k) (to k) message; CallQuit])
  = true ->
  exists s',
    done s = (Ok tt, s')
    /\ new_calls s s'
       = session_calls k ++ [CallSendmail (sender k) (to k) message; CallQuit]
    /\ session s' = Closed
    /\ log s' = log s.
Proof.
  intros k message Hall.
  assert (Hsplit : forall prior cs1 cs2,
             accepts prior (cs1 ++ cs2) = true ->
             accepts prior cs1 = true /\ accepts (prior ++ cs1) cs2 = true).
  { intros prior cs1. revert prior.
    induction cs1 as [|c cs1 IH]; intros prior cs2; cbn.
    - rewrite app_nil_r. auto.
    - destruct (respond prior c); [discriminate|]. intros Hrest.
      destruct (IH _ _ Hrest) as [H1 H2]. split; [exact H1|].
      rewrite <- app_assoc in H2. exact H2. }
  destruct (Hsplit _ _ _ Hall) as [Hacc Hrest].
  cbn in Hrest.
  destruct (respond (calls s ++ session_calls k) _) eqn:Hsend; [discriminate|].
  destruct (respond ((calls s ++ session_calls k) ++ _) CallQuit) eqn:Hquit;
    [discriminate|].
  destruct (store_body_envelope s) as (Hs & Ht & _ & Hc & _).
  pose proof (done_run s Hacc) as Hrun. cbn zeta in Hrun.
  rewrite Hs, Ht, Hc in Hrun. fold k in Hrun.
  change (message_of k) with message in Hrun.
  rewrite Hsend, Hquit in Hrun.
  eexists. split; [exact Hrun|]. unfold new_calls. cbn.
  rewrite <- app_assoc, drop_app_length. auto.
Qed.

(** X7.  Without [use_ssl], [done] never logs in, on any path: a user
    name and a password given at construction are never used, and the
    debug level of the session is left alone. *)
Theorem plain_session_never_logs_in s :
  use_ssl (self s) = false ->
  existsb is_login (new_calls s (snd (done s))) = false
  /\ debuglevel (snd (done s)) = debuglevel s.
Proof.
  intros Hplain. destruct (done_frame s) as (_ & cs & Hcalls & Hno).
  destruct (Hno Hplain) as [Hlogin Hdebug].
  unfold new_calls. rewrite Hcalls, drop_app_length. auto.
Qed.

(** X8.  [write] on something that has no [items] (None, a number, a
    string, a list) raises [AttributeError] and leaves the sink, and
    everything else, as it was. *)
Theorem write_rejects_non_mapping s record :
  match record with
  | VRef l => exists elems, heap s !! l = Some (OList elems)
  | _ => True
  end ->
  write record s = (Raise AttributeError, s).
Proof.
  intros Hshape. unfold write. apply bind_raise.
  destruct record as [| | | |l]; cbn; try reflexivity.
  destruct Hshape as [elems ->]. reflexivity.
Qed.

Lemma writes_accumulate_in h records itemss :
  Forall2 (fun record items => heap_items h record = Ok items) records itemss ->
  forall s,
    heap s = h ->
    exists s',
      for_each records write s = (Ok tt, s')
      /\ stringbuffer (self s')
         = stringbuffer (self s)
           ++ flat_map (map (fun kv : string * val => repr h (snd kv))) itemss
      /\ body (self s') = body (self s)
      /\ calls s' = calls s
      /\ heap s' = h.
Proof.
  induction 1 as [|record items records itemss Hitems _ IH]; intros s Hh.
  - exists s. cbn. rewrite app_nil_r. auto.
  - cbn [for_each flat_map]. subst h.
    rewrite (bind_ok _ _ _ _ _ (write_run record items s Hitems)).
    set (s1 := set_self _ s).
    destruct (IH s1 eq_refl) as (s' & Hrun & Hbuf & Hbody & Hcalls & Hheap).
    exists s'. split; [exact Hrun|]. rewrite Hbuf. cbn.
    rewrite <- app_assoc. auto.
Qed.

(** X9.  Records written one after the other leave in the buffer the
    renderings of all their values, record by record and, within a
    record, item by item; the configured body and the calls made are
    untouched. *)
Theorem writes_accumulate s records itemss :
  Forall2 (fun record items => heap_items (heap s) record = Ok items)
          records itemss ->
  exists s',
    for_each records write s = (Ok tt, s')
    /\ stringbuffer (self s')
       = stringbuffer (self s)
         ++ flat_map (map (fun kv : string * val => repr (heap s) (snd kv))) itemss
    /\ body (self s') = body (self s)
    /\ calls s' = calls s.
Proof.
  intros Hall.
  destruct (writes_accumulate_in (heap s) records itemss Hall s eq_refl)
    as (s' & Hrun & Hbuf & Hbody & Hcalls & _).
  exists s'. auto.
Qed.

(** X10.  An empty record adds no fragment: after writing only empty
    records to a new sink, [done] still sends the configured body. *)
Theorem empty_record_leaves_default_body s record :
  heap_items (heap s) record = Ok [] ->
  stringbuffer (self s) = [] ->
  exists s',
    write record s = (Ok tt, s')
    /\ self s' = self s
    /\ exists m s'', build_message s' = (Ok m, s'') /\ msg_parts m = [body (self s)].
Proof.
  intros Hitems Hempty.
  eexists. split; [apply (write_run record [] s Hitems)|].
  cbn [map]. rewrite app_nil_r.
  assert (Hself : set_stringbuffer (stringbuffer (self s)) (self s) = self s)
    by (destruct (self s); reflexivity).
  rewrite Hself. split; [reflexivity|].
  do 2 eexists. split; [apply build_message_run|].
  change (self (set_self (self s) s)) with (self s).
  unfold message_of, outgoing_body. rewrite Hempty. reflexivity.
Qed.

(** X11.  The fragments of one run are sent again in the next: after
    [done], a [write] appends to the fragments that were there before
    [done], and the next message joins them all. *)
Theorem fragments_outlive_done s record items :
  let s1 := snd (done s) in
  let fragments :=
    stringbuffer (self s) ++ map (fun kv : string * val => repr (heap s) (snd kv)) items in
  heap_items (heap s) record = Ok items ->
  stringbuffer (self s) <> [] ->
  exists s2,
    write record s1 = (Ok tt, s2)
    /\ stringbuffer (self s2) = fragments
    /\ exists m s3,
         build_message s2 = (Ok m, s3)
         /\ msg_parts m = [String.concat "" fragments].
Proof.
  intros s1 fragments Hitems Hbuf.
  destruct (done_frame s) as (Hheap & _). fold s1 in Hheap.
  pose proof (done_keeps_buffer_eq s) as Hkeep. fold s1 in Hkeep.
  assert (Hitems1 : heap_items (heap s1) record = Ok items) by (rewrite Hheap; exact Hitems).
  eexists. split; [apply (write_run record items s1 Hitems1)|].
  rewrite Hheap, Hkeep. fold fragments.
  split; [reflexivity|].
  do 2 eexists. split; [apply build_message_run|].
  change (self (set_self (set_stringbuffer fragments (self s1)) s1))
    with (set_stringbuffer fragments (self s1)).
  unfold message_of, outgoing_body.
  change (stringbuffer (set_stringbuffer fragments (self s1))) with fragments.
  destruct fragments eqn:Hf; [|reflexivity].
  unfold fragments in Hf. apply app_eq_nil in Hf as [Hnil _]. contradiction.
Qed.
End SinkMore.


(** ** Closed instances of the further properties of the sink *)

Section SinkMoreExamples.
Import EmailAlert SinkSpec Fixtures.

Lemma done_keeps_buffer_witness :
  stringbuffer (self written_sink) = ["1"]
  /\ accepts (T := accepting) (calls (snd (done (T := accepting) written_sink)))
             (session_calls (self (snd (done (T := accepting) written_sink)))) = true
  /\ sent_bodies (new_calls (snd (done (T := accepting) written_sink))
                            (snd (done (T := accepting)
                                       (snd (done (T := accepting) written_sink)))))
     = [["1"]].
Proof.
  split; [reflexivity|]. split; [reflexivity|].
  destruct (done_keeps_buffer (T := accepting) written_sink) as [_ Hagain].
  apply Hagain. reflexivity.
Defined.

Lemma done_propagates_connection_failure_witness :
  respond (Transport := refusing) (calls ssl_sink_without_credentials)
          (connect_call (self ssl_sink_without_credentials))
  = Some ConnectionRefusedError
  /\ exists s',
       done (T := refusing) ssl_sink_without_credentials
       = (Raise ConnectionRefusedError, s')
       /\ session s' = Unconnected /\ log s' = [].
Proof.
  split; [reflexivity|].
  destruct (done_propagates_connection_failure (T := refusing)
              ssl_sink_without_credentials ConnectionRefusedError eq_refl)
    as (s' & Hrun & _ & Hsession & Hlog & _).
  exists s'. auto.
Defined.

Lemma done_leaves_session_open_on_login_failure_witness :
  use_ssl (self ssl_sink_without_credentials) = true
  /\ exists s',
       done (T := rejecting_login) ssl_sink_without_credentials
       = (Raise SMTPAuthenticationError, s')
       /\ new_calls ssl_sink_without_credentials s'
          = [CallSMTP_SSL "mail.example.org" 465; CallLogin None None]
       /\ session s' = Connected.
Proof.
  split; [reflexivity|].
  destruct (done_leaves_session_open_on_login_failure (T := rejecting_login)
              ssl_sink_without_credentials SMTPAuthenticationError
              eq_refl eq_refl eq_refl)
    as (s' & Hrun & Hcalls & Hsession & _).
  exists s'. auto.
Defined.

Lemma done_propagates_other_send_errors_witness :
  is_SMTPException ConnectionRefusedError = false
  /\ exists s',
       done (T := dropping_send) plain_sink = (Raise ConnectionRefusedError, s')
       /\ session s' = Closed /\ log s' = [].
Proof.
  split; [reflexivity|].
  destruct (done_propagates_other_send_errors (T := dropping_send) plain_sink
              ConnectionRefusedError eq_refl eq_refl eq_refl eq_refl)
    as (s' & Hrun & Hsession & Hlog & _).
  exists s'. auto.
Defined.

Lemma done_raises_what_quit_raises_witness :
  accepts (T := dropping_quit) (calls plain_sink) (session_calls (self plain_sink))
  = true
  /\ exists s',
       done (T := dropping_quit) plain_sink = (Raise SMTPServerDisconnected, s')
       /\ session s' = Closed.
Proof.
  split; [reflexivity|].
  exact (done_raises_what_quit_raises (T := dropping_quit) plain_sink
           SMTPServerDisconnected eq_refl eq_refl).
Defined.

Lemma done_delivers_one_message_witness :
  exists s',
    done (T := accepting) plain_sink_with_credentials = (Ok tt, s')
    /\ new_calls plain_sink_with_credentials s'
       = [CallSMTP "mail.example.org" 25;
          CallSendmail "cloudmarker@example.org" ["ops@example.org"; "sec@example.org"]
            {| msg_date := "Thu, 01 Jan 1970 00:00:00 +0000";
               msg_subject := "Findings";
               msg_from := "cloudmarker@example.org";
               msg_to := "ops@example.org, sec@example.org";
               msg_parts := ["No findings."] |};
          CallQuit].
Proof.
  destruct (done_delivers_one_message (T := accepting) plain_sink_with_credentials
              eq_refl)
    as (s' & Hrun & Hcalls & _).
  exists s'. split; [exact Hrun|exact Hcalls].
Defined.

Lemma plain_session_never_logs_in_witness :
  username (self plain_sink_with_credentials) = Some "cloudmarker"
  /\ use_ssl (self plain_sink_with_credentials) = false
  /\ existsb is_login
       (new_calls plain_sink_with_credentials
          (snd (done (T := accepting) plain_sink_with_credentials)))
     = false.
Proof.
  split; [reflexivity|]. split; [reflexivity|].
  destruct (plain_session_never_logs_in (T := accepting)
              plain_sink_with_credentials eq_refl) as [Hno _].
  exact Hno.
Defined.

Lemma write_rejects_non_mapping_witness :
  write (E := plain_externals) VNone plain_sink = (Raise AttributeError, plain_sink)
  /\ write (E := plain_externals) (VStr "finding") plain_sink
     = (Raise AttributeError, plain_sink).
Proof.
  split.
  - apply (write_rejects_non_mapping (E := plain_externals) plain_sink VNone). exact I.
  - apply (write_rejects_non_mapping (E := plain_externals) plain_sink (VStr "finding")).
    exact I.
Defined.

Lemma writes_accumulate_witness :
  exists s',
    for_each [VRef 0; VRef 1; VRef 0] (write (E := plain_externals)) plain_sink
    = (Ok tt, s')
    /\ stringbuffer (self s') = ["1"; "2"; "1"]
    /\ body (self s') = "No findings.".
Proof.
  destruct (writes_accumulate (E := plain_externals) plain_sink
              [VRef 0; VRef 1; VRef 0]
              [[("a", VInt 1)]; [("b", VInt 2)]; [("a", VInt 1)]])
    as (s' & Hrun & Hbuf & Hbody & _).
  { repeat constructor. }
  exists s'. auto.
Defined.

Lemma empty_record_leaves_default_body_witness :
  heap_items (heap empty_record_sink) (VRef 0) = Ok []
  /\ exists s',
       write (E := plain_externals) (VRef 0) empty_record_sink = (Ok tt, s')
       /\ exists m s'',
            build_message (T := accepting) s' = (Ok m, s'')
            /\ msg_parts m = ["No findings."].
Proof.
  split; [reflexivity|].
  destruct (empty_record_leaves_default_body (E := plain_externals) (T := accepting)
              empty_record_sink (VRef 0) eq_refl eq_refl)
    as (s' & Hrun & _ & Hmsg).
  exists s'. auto.
Defined.

Lemma fragments_outlive_done_witness :
  stringbuffer (self written_sink) <> []
  /\ exists s2,
       write (E := plain_externals) (VRef 1) (snd (done (T := accepting) written_sink))
       = (Ok tt, s2)
       /\ exists m s3,
            build_message (T := accepting) s2 = (Ok m, s3)
            /\ msg_parts m = ["12"].
Proof.
  assert (Hbuf : stringbuffer (self written_sink) <> []) by discriminate.
  split; [exact Hbuf|].
  destruct (fragments_outlive_done (E := plain_externals) (T := accepting)
              written_sink (VRef 1) [("b", VInt 2)] eq_refl Hbuf)
    as (s2 & Hrun & _ & Hmsg).
  exists s2. auto.
Defined.
End SinkMoreExamples.

(* ===================================================================== *)
(** * Further properties of the evaluator                                 *)
(* ===================================================================== *)

Section EvalMore.
Import AzLogProfile EvalSpec.
Context {E : Externals}.


(** [record.get(name, {})] for a section that is absent or a dict: the
    value is a dict in the heap that holds the three defaults. *)
Lemma section_default h more items name l d :
  match section_of h items name with
  | Missing => d = []
  | Mapping x => d = x
  | Null | Malformed => False
  end ->
  (h ++ more) !! l = Some (ODict []) ->
  exists w,
    default (VRef l) (dict_lookup name items) = VRef w
    /\ (h ++ more) !! w = Some (ODict d).
Proof.
  unfold section_of. intros Hsec Hl.
  destruct (dict_lookup name items) as [[| | | |w]|]; try contradiction.
  - destruct (h !! w) as [[wd|]|] eqn:Hw; try contradiction. subst d.
    exists w. split; [reflexivity|]. apply lookup_grown, Hw.
  - subst d. exists l. split; [reflexivity|exact Hl].
Qed.

Lemma section_not_null h items name l :
  section_of h items name <> Null ->
  is_none (default (VRef l) (dict_lookup name items)) = false.
Proof.
  unfold section_of.
  destruct (dict_lookup name items) as [[| | | |w]|]; cbn; congruence.
Qed.


(** [eval] up to its call of [_evaluate_log_profile_for_activities]:
    the three tests of [com] pass, [ext] and [raw] are not None. *)
Lemma eval_enter s r items c com_items :
  heap s !! r = Some (ODict items) ->
  dict_lookup "com" items = Some (VRef c) ->
  heap s !! c = Some (ODict com_items) ->
  com_matches com_items = true ->
  is_none (default (VRef (length (heap s) + 1)) (dict_lookup "ext" items)) = false ->
  is_none (default (VRef (length (heap s) + 2)) (dict_lookup "raw" items)) = false ->
  eval (VRef r) s
  = _evaluate_log_profile_for_activities (VRef c)
      (default (VRef (length (heap s) + 1)) (dict_lookup "ext" items))
      (default (VRef (length (heap s) + 2)) (dict_lookup "raw" items))
      (set_heap (heap s ++ [ODict []; ODict []; ODict []]) s).
Proof.
  intros Hr Lcom Hc Hmatch Hext Hraw.
  apply andb_prop in Hmatch as [Hct Hrt].
  unfold eval.
  rewrite (bind_ok (new_dict _) _ s _ _ eq_refl).
  set (s1 := set_heap _ s).
  assert (G1 : forall l o, heap s !! l = Some o -> heap s1 !! l = Some o)
    by (intros; apply lookup_grown; assumption).
  rewrite (bind_ok _ _ _ _ _ (dict_get_dict s1 r items _ _ (G1 _ _ Hr))).
  rewrite Lcom. cbn [default from_option id is_none].
  rewrite (bind_ok _ _ _ _ _ (dict_get_dict s1 c com_items _ _ (G1 _ _ Hc))).
  rewrite Hct. cbn [negb].
  rewrite (bind_ok _ _ _ _ _ (dict_get_dict s1 c com_items _ _ (G1 _ _ Hc))).
  rewrite Hrt. cbn [negb].
  rewrite (bind_ok (new_dict _) _ s1 _ _ eq_refl).
  set (s2 := set_heap _ s1).
  assert (G2 : forall l o, heap s !! l = Some o -> heap s2 !! l = Some o)
    by (intros; apply lookup_grown, G1; assumption).
  rewrite (bind_ok _ _ _ _ _ (dict_get_dict s2 r items _ _ (G2 _ _ Hr))).
  replace (length (heap s1)) with (length (heap s) + 1)
    by (cbn; rewrite length_app; reflexivity).
  rewrite Hext.
  rewrite (bind_ok (new_dict _) _ s2 _ _ eq_refl).
  set (s3 := set_heap _ s2).
  assert (G3 : forall l o, heap s !! l = Some o -> heap s3 !! l = Some o)
    by (intros; apply lookup_grown, G2; assumption).
  rewrite (bind_ok _ _ _ _ _ (dict_get_dict s3 r items _ _ (G3 _ _ Hr))).
  replace (length (heap s2)) with (length (heap s) + 2)
    by (cbn; rewrite !length_app; cbn; lia).
  rewrite Hraw.
  f_equal. unfold s3, s2, s1, set_heap. cbn. rewrite <- !app_assoc. reflexivity.
Qed.

(** The loop stops at its first membership test when [raw] holds no
    categories. *)
Lemma evaluate_raises_without_categories com ext w raw_items s :
  heap s !! w = Some (ODict raw_items) ->
  default VNone (dict_lookup "categories" raw_items) = VNone ->
  _evaluate_log_profile_for_activities com ext (VRef w) s
  = (Raise TypeError,
     {| heap := heap s; yielded := yielded s;
        log := log s ++ [LogInfo VNone []] |}).
Proof.
  intros Hw Hcats. unfold _evaluate_log_profile_for_activities.
  rewrite (bind_ok _ _ _ _ _ (dict_get_dict s w raw_items _ _ Hw)).
  rewrite Hcats.
  rewrite (bind_ok (log_info _ _) _ s tt _ eq_refl).
  unfold activities. cbn [for_each].
  apply bind_raise.
  match goal with |- _ ?s1 = _ => set (s' := s1) end.
  rewrite (bind_ok _ _ _ _ _ (dict_get_dict s' w raw_items _ _ Hw)).
  rewrite Hcats. apply bind_raise. reflexivity.
Qed.

(** The loop over a string of categories in which every activity
    occurs. *)
Lemma evaluate_run_string com ext w raw_items text s :
  heap s !! w = Some (ODict raw_items) ->
  dict_lookup "categories" raw_items = Some (VStr text) ->
  forallb (fun activity => str_contains activity text) activities = true ->
  _evaluate_log_profile_for_activities com ext (VRef w) s
  = (Ok tt,
     {| heap := heap s; yielded := yielded s;
        log := log s ++ [LogInfo (VStr text) []] |}).
Proof.
  intros Hw Hcats Hall. unfold _evaluate_log_profile_for_activities.
  rewrite (bind_ok _ _ _ _ _ (dict_get_dict s w raw_items _ _ Hw)).
  rewrite Hcats. cbn [default from_option id].
  rewrite (bind_ok (log_info _ _) _ s tt _ eq_refl).
  match goal with |- _ ?s1 = _ => set (s' := s1) end.
  assert (Hw' : heap s' !! w = Some (ODict raw_items)) by exact Hw.
  change (for_each activities
            (fun activity =>
               categories <- dict_get (VRef w) "categories" VNone ;;
               present <- contains categories activity ;;
               if negb present then
                 event <- _get_log_profile_activity_event com ext activity ;;
                 yield event
               else ret tt) s' = (Ok tt, s')).
  revert Hall. generalize activities as acts.
  induction acts as [|activity acts IH]; intros Hall; [reflexivity|].
  cbn [forallb] in Hall. apply andb_prop in Hall as [Hone Hrest].
  cbn [for_each].
  rewrite (bind_ok _ _ s' tt s'); [apply IH, Hrest|].
  rewrite (bind_ok _ _ _ _ _ (dict_get_dict s' w raw_items _ _ Hw')).
  rewrite Hcats. cbn [default from_option id].
  rewrite (bind_ok _ _ s' (str_contains activity text) s' eq_refl).
  rewrite Hone. reflexivity.
Qed.

(** X12.  A log profile whose [ext] is not None and whose [raw] section
    is absent, or is a dict without [categories] (or with [categories]
    None), makes [eval] raise [TypeError] at [activity not in None]: no
    event is yielded, and the one log line is the None it found. *)
Theorem eval_raises_without_categories s r items com_items raw_items :
  heap s !! r = Some (ODict items) ->
  section_of (heap s) items "com" = Mapping com_items ->
  com_matches com_items = true ->
  section_of (heap s) items "ext" <> Null ->
  match section_of (heap s) items "raw" with
  | Missing => raw_items = []
  | Mapping d => raw_items = d
  | Null | Malformed => False
  end ->
  default VNone (dict_lookup "categories" raw_items) = VNone ->
  exists s',
    eval (VRef r) s = (Raise TypeError, s')
    /\ new_events s s' = []
    /\ log s' = log s ++ [LogInfo VNone []].
Proof.
  intros Hr Hcom Hmatch Hext Hraw Hcats.
  pose proof (section_not_null _ _ _ (length (heap s) + 1) Hext) as Hext'.
  destruct (section_default (heap s) [ODict []; ODict []; ODict []] items "raw"
              (length (heap s) + 2) raw_items Hraw) as (w & Hdef & Hw).
  { rewrite lookup_fresh. reflexivity. }
  unfold section_of in Hcom.
  destruct (dict_lookup "com" items) as [[| | | |c]|] eqn:Lcom; try discriminate.
  destruct (heap s !! c) as [[cd|]|] eqn:Hc; try discriminate.
  injection Hcom as ->.
  rewrite (eval_enter s r items c com_items Hr Lcom Hc Hmatch Hext');
    [|rewrite Hdef; reflexivity].
  rewrite Hdef.
  rewrite (evaluate_raises_without_categories _ _ w raw_items
             (set_heap (heap s ++ [ODict []; ODict []; ODict []]) s) Hw Hcats).
  eexists. split; [reflexivity|]. split; [|reflexivity].
  apply new_events_app. cbn. rewrite app_nil_r. reflexivity.
Qed.

(** X13.  Whatever its argument and whichever way it ends, returning or
    raising, [eval] only adds: every object of the heap stays where it
    was with the items it had, and the events yielded and the lines
    logged before are still there, in front of the new ones. *)
Theorem eval_only_adds record s :
  let s' := snd (eval record s) in
  (forall l o, heap s !! l = Some o -> heap s' !! l = Some o)
  /\ yielded s `prefix_of` yielded s'
  /\ log s `prefix_of` log s'.
Proof.
  destruct (preserves_grown_eval s record s (grown_refl s))
    as ([more Hheap] & Hy & Hl).
  cbv zeta. split; [|split; assumption].
  intros l o Hlo. rewrite Hheap. apply lookup_grown, Hlo.
Qed.

(** X14.  A record whose [com] is neither None nor a dict (a string, a
    number, a list) makes [eval] raise [AttributeError] at
    [com.get('cloud_type')]; nothing is yielded or logged. *)
Theorem eval_rejects_malformed_com s r items v :
  heap s !! r = Some (ODict items) ->
  dict_lookup "com" items = Some v ->
  match v with
  | VNone => False
  | VRef l => exists elems, heap s !! l = Some (OList elems)
  | _ => True
  end ->
  eval (VRef r) s = (Raise AttributeError, set_heap (heap s ++ [ODict []]) s).
Proof.
  intros Hr Lcom Hshape. unfold eval.
  rewrite (bind_ok (new_dict _) _ s _ _ eq_refl).
  set (s1 := set_heap _ s).
  assert (G1 : forall l o, heap s !! l = Some o -> heap s1 !! l = Some o)
    by (intros; apply lookup_grown; assumption).
  rewrite (bind_ok _ _ _ _ _ (dict_get_dict s1 r items _ _ (G1 _ _ Hr))).
  rewrite Lcom. cbn [default from_option id].
  destruct v as [|b|n|text|l]; try contradiction; cbn [is_none];
    apply bind_raise; try reflexivity.
  destruct Hshape as [elems Hl].
  unfold dict_get, heap_dict_get. rewrite (G1 _ _ Hl). reflexivity.
Qed.

(** X15.  [eval] on something that has no [get] (None, a number, a
    string, a list) raises [AttributeError] at [record.get]; nothing is
    yielded or logged. *)
Theorem eval_rejects_non_mapping_record s record :
  match record with
  | VRef l => exists elems, heap s !! l = Some (OList elems)
  | _ => True
  end ->
  exists s',
    eval record s = (Raise AttributeError, s')
    /\ yielded s' = yielded s
    /\ log s' = log s.
Proof.
  intros Hshape. exists (set_heap (heap s ++ [ODict []]) s).
  split; [|split; reflexivity].
  unfold eval.
  rewrite (bind_ok (new_dict _) _ s _ _ eq_refl).
  apply bind_raise.
  destruct record as [|b|n|text|l]; try reflexivity.
  destruct Hshape as [elems Hl].
  unfold dict_get, heap_dict_get. cbn [heap set_heap].
  rewrite (lookup_grown _ _ _ _ Hl). reflexivity.
Qed.

(** X16.  For an Azure log profile whose [ext] is absent or a mapping
    and whose [raw.categories] is a list, [eval] yields at most three
    events, and none exactly when Write, Delete and Action are all in
    the list. *)
Theorem eval_yields_nothing_iff_all_listed s r items com_items ext_items
    raw_items cl categories :
  heap s !! r = Some (ODict items) ->
  section_of (heap s) items "com" = Mapping com_items ->
  com_matches com_items = true ->
  match section_of (heap s) items "ext" with
  | Missing => ext_items = []
  | Mapping d => ext_items = d
  | Null | Malformed => False
  end ->
  section_of (heap s) items "raw" = Mapping raw_items ->
  dict_lookup "categories" raw_items = Some (VRef cl) ->
  heap s !! cl = Some (OList categories) ->
  exists s',
    eval (VRef r) s = (Ok tt, s')
    /\ length (new_events s s') <= 3
    /\ (new_events s s' = [] <-> forallb (listed categories) activities = true).
Proof.
  intros Hr Hcom Hmatch Hext Hraw Hcats Hcl.
  rewrite (eval_run s r items com_items ext_items raw_items cl categories
             Hr Hcom Hmatch Hext Hraw Hcats Hcl).
  eexists. split; [reflexivity|].
  destruct (run_activities_events (heap s) com_items ext_items categories
              activities (entered (VRef cl) s)) as (_ & evs & Hy & Hev & _).
  { cbn. rewrite length_app. lia. }
  rewrite (new_events_app s _ evs Hy).
  apply Forall2_length in Hev. revert Hev.
  unfold activities. cbn [List.filter forallb].
  destruct (listed categories "Write"), (listed categories "Delete"),
    (listed categories "Action"); cbn; intros Hlen;
    (split; [lia|]); (split; [intros ->; discriminate Hlen || reflexivity|]);
    intros Hall; try discriminate Hall.
  destruct evs; [reflexivity|discriminate Hlen].
Qed.



(** X19.  When [raw.categories] is one string rather than a list, the
    test [activity not in categories] is a substring test: a string in
    which Write, Delete and Action all occur makes [eval] return without
    an event. *)
Theorem eval_string_categories_use_substring s r items com_items raw_items text :
  heap s !! r = Some (ODict items) ->
  section_of (heap s) items "com" = Mapping com_items ->
  com_matches com_items = true ->
  section_of (heap s) items "ext" <> Null ->
  section_of (heap s) items "raw" = Mapping raw_items ->
  dict_lookup "categories" raw_items = Some (VStr text) ->
  forallb (fun activity => str_contains activity text) activities = true ->
  exists s',
    eval (VRef r) s = (Ok tt, s')
    /\ new_events s s' = []
    /\ log s' = log s ++ [LogInfo (VStr text) []].
Proof.
  intros Hr Hcom Hmatch Hext Hraw Hcats Hall.
  pose proof (section_not_null _ _ _ (length (heap s) + 1) Hext) as Hext'.
  destruct (section_default (heap s) [ODict []; ODict []; ODict []] items "raw"
              (length (heap s) + 2) raw_items) as (w & Hdef & Hw).
  { rewrite Hraw. reflexivity. }
  { rewrite lookup_fresh. reflexivity. }
  unfold section_of in Hcom.
  destruct (dict_lookup "com" items) as [[| | | |c]|] eqn:Lcom; try discriminate.
  destruct (heap s !! c) as [[cd|]|] eqn:Hc; try discriminate.
  injection Hcom as ->.
  rewrite (eval_enter s r items c com_items Hr Lcom Hc Hmatch Hext');
    [|rewrite Hdef; reflexivity].
  rewrite Hdef.
  rewrite (evaluate_run_string _ _ w raw_items text
             (set_heap (heap s ++ [ODict []; ODict []; ODict []]) s) Hw Hcats Hall).
  eexists. split; [reflexivity|]. split; [|reflexivity].
  apply new_events_app. cbn. rewrite app_nil_r. reflexivity.
Qed.

End EvalMore.

Section EvalMoreExamples.
Import AzLogProfile EvalSpec Fixtures.

Lemma eval_raises_without_categories_witness :
  heap profile_state !! 6 = Some (ODict [("com", VRef 1); ("ext", VRef 2)])
  /\ exists s',
       eval (E := plain_externals) (VRef 6) profile_state = (Raise TypeError, s')
       /\ new_events profile_state s' = []
       /\ log s' = [LogInfo VNone []].
Proof.
  split; [reflexivity|].
  apply (eval_raises_without_categories (E := plain_externals) profile_state 6
           [("com", VRef 1); ("ext", VRef 2)]
           [("cloud_type", VStr "azure"); ("record_type", VStr "log_profile");
            ("reference", VStr "default")]
           []); try reflexivity.
  vm_compute. discriminate.
Defined.

Lemma eval_rejects_malformed_com_witness :
  heap odd_state !! 0 = Some (ODict [("com", VStr "azure")])
  /\ eval (E := plain_externals) (VRef 0) odd_state
     = (Raise AttributeError, set_heap (heap odd_state ++ [ODict []]) odd_state).
Proof.
  split; [reflexivity|].
  apply (eval_rejects_malformed_com (E := plain_externals) odd_state 0
           [("com", VStr "azure")] (VStr "azure")); [reflexivity|reflexivity|exact I].
Defined.

Lemma eval_rejects_non_mapping_record_witness :
  (exists s',
     eval (E := plain_externals) VNone profile_state = (Raise AttributeError, s')
     /\ yielded s' = [] /\ log s' = [])
  /\ heap profile_state !! 4 = Some (OList [VStr "Write"])
  /\ exists s',
       eval (E := plain_externals) (VRef 4) profile_state = (Raise AttributeError, s')
       /\ yielded s' = [] /\ log s' = [].
Proof.
  split; [|split; [reflexivity|]].
  - apply (eval_rejects_non_mapping_record (E := plain_externals) profile_state VNone).
    exact I.
  - apply (eval_rejects_non_mapping_record (E := plain_externals) profile_state (VRef 4)).
    exists [VStr "Write"]. reflexivity.
Defined.

Lemma eval_yields_nothing_iff_all_listed_witness :
  heap odd_state !! 6 = Some (OList [VStr "Action"; VStr "Write"; VStr "Delete"])
  /\ exists s',
       eval (E := plain_externals) (VRef 4) odd_state = (Ok tt, s')
       /\ new_events odd_state s' = [].
Proof.
  split; [reflexivity|].
  destruct (eval_yields_nothing_iff_all_listed (E := plain_externals) odd_state 4
              [("com", VRef 1); ("raw", VRef 5)]
              [("cloud_type", VStr "azure"); ("record_type", VStr "log_profile");
               ("reference", VStr "default")]
              []
              [("categories", VRef 6)]
              6 [VStr "Action"; VStr "Write"; VStr "Delete"])
    as (s' & Hrun & _ & Hnone); try reflexivity.
  exists s'. split; [exact Hrun|]. apply Hnone. reflexivity.
Defined.



Lemma eval_string_categories_use_substring_witness :
  heap odd_state !! 3 = Some (ODict [("categories", VStr "Write,Delete,Action")])
  /\ exists s',
       eval (E := plain_externals) (VRef 2) odd_state = (Ok tt, s')
       /\ new_events odd_state s' = []
       /\ log s' = [LogInfo (VStr "Write,Delete,Action") []].
Proof.
  split; [reflexivity|].
  apply (eval_string_categories_use_substring (E := plain_externals) odd_state 2
           [("com", VRef 1); ("raw", VRef 3)]
           [("cloud_type", VStr "azure"); ("record_type", VStr "log_profile");
            ("reference", VStr "default")]
           [("categories", VStr "Write,Delete,Action")]
           "Write,Delete,Action"); try reflexivity.
  vm_compute. discriminate.
Defined.

End EvalMoreExamples.

Section EvalOnlyAddsExample.
Import AzLogProfile EvalSpec Fixtures.

Lemma eval_only_adds_witness :
  fst (eval (E := plain_externals) (VRef 6) profile_state) = Raise TypeError
  /\ heap (snd (eval (E := plain_externals) (VRef 6) profile_state)) !! 6
     = Some (ODict [("com", VRef 1); ("ext", VRef 2)]).
Proof.
  split; [reflexivity|].
  destruct (eval_only_adds (E := plain_externals) (VRef 6) profile_state)
    as (Hkeep & _).
  apply Hkeep. reflexivity.
Defined.
End EvalOnlyAddsExample.
